(** * The download-session controller of [static/progress.js]

    A shallow embedding of the [VideoDownloader] class and of the global
    [resetDownload] function, executed by a small model of the browser:
    the DOM elements the script touches, the interval timers, the
    outstanding [fetch] calls and the user-visible outputs. *)

From Stdlib Require Import Ascii String ZArith NArith.
From stdpp Require Import base decidable option list strings functions gmap pretty.

Open Scope string_scope.
Open Scope list_scope.

(** ** ECMAScript strings

    A string is a sequence of code units; the model keeps the code units
    below 256, which is enough for every literal of the script. *)

Module Js.

(** [WhiteSpace] and [LineTerminator] code units below 256: TAB, LF, VT,
    FF, CR, SP and NBSP. *)
Definition is_white (c : ascii) : bool :=
  let n := nat_of_ascii c in
  bool_decide (n = 9 ∨ n = 10 ∨ n = 11 ∨ n = 12 ∨ n = 13 ∨ n = 32 ∨ n = 160)%nat.

Fixpoint trimStart (s : string) : string :=
  match s with
  | String c r => if is_white c then trimStart r else s
  | EmptyString => EmptyString
  end.

Fixpoint trimEnd (s : string) : string :=
  match s with
  | String c r =>
      match trimEnd r with
      | EmptyString => if is_white c then EmptyString else String c EmptyString
      | r' => String c r'
      end
  | EmptyString => EmptyString
  end.

(** [s.trim()] *)
Definition trim (s : string) : string := trimEnd (trimStart s).

(** [hay.includes(needle)] *)
Fixpoint includes (hay needle : string) : bool :=
  String.prefix needle hay ||
  match hay with
  | String _ r => includes r needle
  | EmptyString => false
  end.

(** Truthiness of a value that is a string, [null] or [undefined]. *)
Definition truthy (v : option string) : bool :=
  match v with
  | Some (String _ _) => true
  | _ => false
  end.

(** [v || fallback] for such a value. *)
Definition or_else (v : option string) (fallback : string) : string :=
  match v with
  | Some (String c r) => String c r
  | _ => fallback
  end.

(** Truthiness of a timer handle: a number, or [null]. *)
Definition truthy_handle (v : option N) : bool :=
  match v with
  | Some h => negb (h =? 0)%N
  | None => false
  end.

(** Assigning to [textContent], a nullable DOMString attribute:
    [undefined] and [null] leave the element without text. *)
Definition to_text (v : option string) : string := default "" v.

End Js.

(** ** Data received from the server *)

Module FormatOption.
Record t := Build {
  format_id : string;
  type : string;
  resolution : string;
  ext : string;
  filesize : string;
  quality : Z
}.
End FormatOption.

(** Body of the answer to [POST /fetch_formats]. *)
Module VideoInfo.
Record t := Build {
  error : option string;
  title : string;
  uploader : string;
  duration : string;
  thumbnail : option string;
  formats : option (list FormatOption.t)
}.
End VideoInfo.

(** Body of the answer to [POST /download]. *)
Module DownloadStarted.
Record t := Build {
  error : option string;
  download_id : option string
}.
End DownloadStarted.

(** Body of the answer to [GET /progress/<id>]; [percent] is a whole
    number, between 0 and 100 in the answers of the server. *)
Module Progress.
Record t := Build {
  status : string;
  percent : Z;
  speed : string;
  filesize : string;
  eta : string;
  message : string;
  filename : option string
}.
End Progress.

(** ** The page *)

Record Element := {
  classList : gset string;
  textContent : string;
  innerHTML : string;
  value : string;
  disabled : bool;
  style_display : string;
  style_width : string;
  src : string;
  alt : string
}.

Definition set_classList (v : gset string) (e : Element) : Element :=
  {| classList := v; textContent := textContent e; innerHTML := innerHTML e;
     value := value e; disabled := disabled e; style_display := style_display e;
     style_width := style_width e; src := src e; alt := alt e |}.
Definition set_textContent (v : string) (e : Element) : Element :=
  {| classList := classList e; textContent := v; innerHTML := innerHTML e;
     value := value e; disabled := disabled e; style_display := style_display e;
     style_width := style_width e; src := src e; alt := alt e |}.
Definition set_innerHTML (v : string) (e : Element) : Element :=
  {| classList := classList e; textContent := textContent e; innerHTML := v;
     value := value e; disabled := disabled e; style_display := style_display e;
     style_width := style_width e; src := src e; alt := alt e |}.
Definition set_value (v : string) (e : Element) : Element :=
  {| classList := classList e; textContent := textContent e; innerHTML := innerHTML e;
     value := v; disabled := disabled e; style_display := style_display e;
     style_width := style_width e; src := src e; alt := alt e |}.
Definition set_disabled (v : bool) (e : Element) : Element :=
  {| classList := classList e; textContent := textContent e; innerHTML := innerHTML e;
     value := value e; disabled := v; style_display := style_display e;
     style_width := style_width e; src := src e; alt := alt e |}.
Definition set_style_display (v : string) (e : Element) : Element :=
  {| classList := classList e; textContent := textContent e; innerHTML := innerHTML e;
     value := value e; disabled := disabled e; style_display := v;
     style_width := style_width e; src := src e; alt := alt e |}.
Definition set_style_width (v : string) (e : Element) : Element :=
  {| classList := classList e; textContent := textContent e; innerHTML := innerHTML e;
     value := value e; disabled := disabled e; style_display := style_display e;
     style_width := v; src := src e; alt := alt e |}.
Definition set_src (v : string) (e : Element) : Element :=
  {| classList := classList e; textContent := textContent e; innerHTML := innerHTML e;
     value := value e; disabled := disabled e; style_display := style_display e;
     style_width := style_width e; src := v; alt := alt e |}.
Definition set_alt (v : string) (e : Element) : Element :=
  {| classList := classList e; textContent := textContent e; innerHTML := innerHTML e;
     value := value e; disabled := disabled e; style_display := style_display e;
     style_width := style_width e; src := src e; alt := v |}.

(** A [div.format-option] with its radio input ([name="format"]). *)
Record FormatElement := {
  row_classList : gset string;
  radio_id : string;
  radio_value : string;
  radio_data_type : string;
  radio_checked : bool
}.

(** The children of [#formatsList]. *)
Inductive Node :=
| NoticeDiv (className text : string)
| FormatDiv (row : FormatElement).

(** The page.  Its markup is not part of the script, so the page is a
    parameter of the model, of which the script assumes (and so does the
    model) that [getElementById] is total: the static page defines every
    id the script asks for; and that the rows the script appends to
    [#formatsList] are the only elements of class [format-option] and the
    only radio inputs named [format]. *)
Record Document := {
  getElementById : string → Element;
  formatsList : list Node
}.

(** ** The browser around the script *)

(** The fields of the [VideoDownloader] instance. *)
Record VideoDownloader := {
  currentDownloadId : option string;
  progressInterval : option N
}.

(** A [fetch] call, by endpoint and JSON body. *)
Inductive Request :=
| PostFetchFormats (url : string)
| PostDownload (url format_id type : string)
| GetProgress (download_id : string).

(** The async method suspended on a [fetch]. *)
Inductive Awaiting := AwaitFormats | AwaitDownload | AwaitProgress.

(** How a suspended call is resumed: [fetch] or [response.json()]
    rejected with an error carrying [message], or the body was parsed. *)
Inductive Reply :=
| Rejected (message : string)
| FormatsReply (ok : bool) (data : VideoInfo.t)
| DownloadReply (ok : bool) (data : DownloadStarted.t)
| ProgressReply (data : Progress.t).

Record Browser := {
  downloader : VideoDownloader;
  document : Document;
  intervals : gset N;
  next_handle : N;
  network : list Request;
  suspended : gmap nat Awaiting;
  alerts : list string;
  console : list (string * string);
  windows : list string
}.

Definition Action := Browser → Browser.

Definition with_downloader (f : VideoDownloader → VideoDownloader) : Action := λ b,
  {| downloader := f (downloader b); document := document b; intervals := intervals b;
     next_handle := next_handle b; network := network b; suspended := suspended b;
     alerts := alerts b; console := console b; windows := windows b |}.
Definition with_document (f : Document → Document) : Action := λ b,
  {| downloader := downloader b; document := f (document b); intervals := intervals b;
     next_handle := next_handle b; network := network b; suspended := suspended b;
     alerts := alerts b; console := console b; windows := windows b |}.
Definition with_intervals (f : gset N → gset N) : Action := λ b,
  {| downloader := downloader b; document := document b; intervals := f (intervals b);
     next_handle := next_handle b; network := network b; suspended := suspended b;
     alerts := alerts b; console := console b; windows := windows b |}.
Definition with_next_handle (f : N → N) : Action := λ b,
  {| downloader := downloader b; document := document b; intervals := intervals b;
     next_handle := f (next_handle b); network := network b; suspended := suspended b;
     alerts := alerts b; console := console b; windows := windows b |}.
Definition with_network (f : list Request → list Request) : Action := λ b,
  {| downloader := downloader b; document := document b; intervals := intervals b;
     next_handle := next_handle b; network := f (network b); suspended := suspended b;
     alerts := alerts b; console := console b; windows := windows b |}.
Definition with_suspended (f : gmap nat Awaiting → gmap nat Awaiting) : Action := λ b,
  {| downloader := downloader b; document := document b; intervals := intervals b;
     next_handle := next_handle b; network := network b; suspended := f (suspended b);
     alerts := alerts b; console := console b; windows := windows b |}.
Definition with_alerts (f : list string → list string) : Action := λ b,
  {| downloader := downloader b; document := document b; intervals := intervals b;
     next_handle := next_handle b; network := network b; suspended := suspended b;
     alerts := f (alerts b); console := console b; windows := windows b |}.
Definition with_console (f : list (string * string) → list (string * string)) : Action := λ b,
  {| downloader := downloader b; document := document b; intervals := intervals b;
     next_handle := next_handle b; network := network b; suspended := suspended b;
     alerts := alerts b; console := f (console b); windows := windows b |}.
Definition with_windows (f : list string → list string) : Action := λ b,
  {| downloader := downloader b; document := document b; intervals := intervals b;
     next_handle := next_handle b; network := network b; suspended := suspended b;
     alerts := alerts b; console := console b; windows := f (windows b) |}.

(** Statements in sequence. *)
Definition seq (f g : Action) : Action := λ b, g (f b).
Declare Scope action_scope.
Delimit Scope action_scope with A.
Bind Scope action_scope with Action.
Notation "f ;; g" := (seq f g%A)
  (at level 100, g at level 200, right associativity) : action_scope.

Definition skip : Action := λ b, b.

(** *** DOM and window primitives *)

Definition on_element (id : string) (f : Element → Element) : Action :=
  with_document (λ d,
    {| getElementById := <[id := f (getElementById d id)]> (getElementById d);
       formatsList := formatsList d |}).

Definition on_formatsList (f : list Node → list Node) : Action :=
  with_document (λ d,
    {| getElementById := getElementById d; formatsList := f (formatsList d) |}).

Definition classList_add (id cls : string) : Action :=
  on_element id (λ e, set_classList (classList e ∪ {[cls]}) e).

Definition classList_remove (id : string) (cls : list string) : Action :=
  on_element id (λ e, set_classList (classList e ∖ list_to_set cls) e).

Definition alert (message : string) : Action :=
  with_alerts (λ l, l ++ [message]).

Definition console_error (label message : string) : Action :=
  with_console (λ l, l ++ [(label, message)]).

Definition window_open (url : string) : Action :=
  with_windows (λ l, l ++ [url]).

(** [fetch(...)] followed by [await]: the request leaves, and the method
    [k] is suspended under the position of the request in [network]. *)
Definition fetch (req : Request) (k : Awaiting) : Action := λ b,
  with_suspended (insert (length (network b)) k) (with_network (λ l, l ++ [req]) b).

Definition clearInterval (v : option N) : Action :=
  match v with
  | Some h => with_intervals (λ t, t ∖ {[h]})
  | None => skip
  end.

(** [setInterval(callback, 1000)]: installs a timer under a fresh handle,
    which the caller stores in [this.progressInterval]. *)
Definition setInterval_into_progressInterval : Action := λ b,
  let h := next_handle b in
  (with_intervals (λ t, t ∪ {[h]}) ;;
   with_next_handle N.succ ;;
   with_downloader (λ c,
     {| currentDownloadId := currentDownloadId c; progressInterval := Some h |}))%A b.

(** The double quote, for the markup literals of the script. *)
Definition dq : string := String (ascii_of_nat 34) EmptyString.

(** ** The methods of [VideoDownloader] *)

Definition hide (id : string) : Action := classList_add id "d-none".
Definition unhide (id : string) : Action := classList_remove id ["d-none"].

Definition showError (message : string) : Action :=
  alert ("Error: " +:+ message).

Definition resetUI : Action :=
  (hide "videoInfoCard" ;;
   hide "formatsCard" ;;
   hide "progressCard" ;;
   hide "downloadComplete" ;;
   hide "downloadError" ;;
   unhide "progressContent")%A.

Definition fetching_label : string :=
  "<i class=" +:+ dq +:+ "fas fa-spinner fa-spin me-2" +:+ dq +:+ "></i>Fetching...".
Definition fetch_label : string :=
  "<i class=" +:+ dq +:+ "fas fa-search me-2" +:+ dq +:+ "></i>Fetch Formats".

(** [fetchFormats], up to its first [await]. *)
Definition fetchFormats : Action := λ b,
  match Js.trim (value (getElementById (document b) "videoUrl")) with
  | EmptyString => showError "Please enter a video URL" b
  | url =>
      (resetUI ;;
       on_element "fetchBtn" (set_disabled true) ;;
       on_element "fetchBtn" (set_innerHTML fetching_label) ;;
       fetch (PostFetchFormats url) AwaitFormats)%A b
  end.

Definition no_thumbnail : string :=
  "data:image/svg+xml,<svg xmlns=" +:+ dq +:+ "http://www.w3.org/2000/svg" +:+ dq
  +:+ " width=" +:+ dq +:+ "200" +:+ dq +:+ " height=" +:+ dq +:+ "150" +:+ dq
  +:+ " viewBox=" +:+ dq +:+ "0 0 200 150" +:+ dq +:+ "><rect width=" +:+ dq +:+ "200" +:+ dq
  +:+ " height=" +:+ dq +:+ "150" +:+ dq +:+ " fill=" +:+ dq +:+ "%23ddd" +:+ dq
  +:+ "/><text x=" +:+ dq +:+ "100" +:+ dq +:+ " y=" +:+ dq +:+ "75" +:+ dq
  +:+ " text-anchor=" +:+ dq +:+ "middle" +:+ dq +:+ " dy=" +:+ dq +:+ ".3em" +:+ dq
  +:+ " fill=" +:+ dq +:+ "%23999" +:+ dq +:+ ">No Thumbnail</text></svg>".

Definition displayVideoInfo (videoInfo : VideoInfo.t) : Action :=
  (unhide "videoInfoCard" ;;
   on_element "videoTitle" (set_textContent (VideoInfo.title videoInfo)) ;;
   on_element "videoUploader" (set_textContent (VideoInfo.uploader videoInfo)) ;;
   on_element "videoDuration" (set_textContent (VideoInfo.duration videoInfo)) ;;
   if Js.truthy (VideoInfo.thumbnail videoInfo)
   then on_element "videoThumbnail" (set_src (Js.to_text (VideoInfo.thumbnail videoInfo))) ;;
        on_element "videoThumbnail" (set_alt (VideoInfo.title videoInfo))
   else on_element "videoThumbnail" (set_src no_thumbnail))%A.

(** [createFormatElement]: the row and its radio input as the browser
    parses them out of the template, for a format whose strings are free
    of markup ([plain_format], below): the [value] and [data-type]
    attributes are then the interpolated strings.  A statement that
    equates an attribute of a rendered radio with a string of the server
    carries that condition; the parse of other strings (character
    references, a quote that ends the attribute) is not modelled.  The
    label markup, which [getTypeBadge], [getQualityClass] and
    [getFormatDescription] build, is presentation only and is not part of
    the model. *)
Definition createFormatElement (format : FormatOption.t) : FormatElement :=
  {| row_classList := {["format-option"]};
     radio_id := "format-" +:+ FormatOption.format_id format;
     radio_value := FormatOption.format_id format;
     radio_data_type := FormatOption.type format;
     radio_checked := false |}.

Definition row_classList_remove (cls : string) (r : FormatElement) : FormatElement :=
  {| row_classList := row_classList r ∖ {[cls]}; radio_id := radio_id r;
     radio_value := radio_value r; radio_data_type := radio_data_type r;
     radio_checked := radio_checked r |}.
Definition row_classList_add (cls : string) (r : FormatElement) : FormatElement :=
  {| row_classList := row_classList r ∪ {[cls]}; radio_id := radio_id r;
     radio_value := radio_value r; radio_data_type := radio_data_type r;
     radio_checked := radio_checked r |}.
Definition set_radio_checked (v : bool) (r : FormatElement) : FormatElement :=
  {| row_classList := row_classList r; radio_id := radio_id r;
     radio_value := radio_value r; radio_data_type := radio_data_type r;
     radio_checked := v |}.

(** The selector [.format-option]. *)
Definition is_format_option (r : FormatElement) : bool :=
  bool_decide ("format-option" ∈ row_classList r).

(** The click listener of the row at position [i] of the list: every
    [.format-option] loses [selected], the clicked row gains it and its
    radio is checked, which unchecks the other radios of the group. *)
Definition click_listener (i : nat) (nodes : list Node) : list Node :=
  imap (λ j n,
    match n with
    | FormatDiv r =>
        let r := if is_format_option r then row_classList_remove "selected" r else r in
        FormatDiv (if bool_decide (j = i)
                   then set_radio_checked true (row_classList_add "selected" r)
                   else set_radio_checked false r)
    | NoticeDiv _ _ => n
    end) nodes.

(** A click on the child at position [i] of [#formatsList]; only format
    rows listen. *)
Definition click_format (i : nat) : Action := λ b,
  match formatsList (document b) !! i with
  | Some (FormatDiv _) => on_formatsList (click_listener i) b
  | _ => b
  end.

(** [document.querySelector('.format-option')], as a position in the list. *)
Fixpoint first_format_option (nodes : list Node) : option nat :=
  match nodes with
  | [] => None
  | FormatDiv r :: rest =>
      if is_format_option r then Some 0%nat else S <$> first_format_option rest
  | NoticeDiv _ _ :: rest => S <$> first_format_option rest
  end.

(** [document.querySelector('input[name="format"]:checked')] *)
Fixpoint checked_radio (nodes : list Node) : option FormatElement :=
  match nodes with
  | [] => None
  | FormatDiv r :: rest => if radio_checked r then Some r else checked_radio rest
  | NoticeDiv _ _ :: rest => checked_radio rest
  end.

Definition no_formats_notice : Node :=
  NoticeDiv "alert alert-warning" "No formats available for this video.".

Definition displayFormats (formats : option (list FormatOption.t)) : Action :=
  (on_formatsList (λ _, []) ;;
   match formats with
   | None | Some [] =>
       on_formatsList (λ _, [no_formats_notice]) ;;
       on_element "downloadBtn" (set_style_display "none")
   | Some formats =>
       on_element "downloadBtn" (set_style_display "block") ;;
       on_formatsList (λ l, l ++ (FormatDiv ∘ createFormatElement <$> formats)) ;;
       (λ b, match first_format_option (formatsList (document b)) with
             | Some i => click_format i b
             | None => b
             end) ;;
       unhide "formatsCard"
   end)%A.

Definition showProgressError (message : string) : Action :=
  (hide "progressContent" ;;
   unhide "downloadError" ;;
   on_element "errorMessage" (set_textContent message))%A.

Definition showDownloadComplete (progress : Progress.t) : Action :=
  (hide "progressContent" ;;
   unhide "downloadComplete" ;;
   on_element "completedFilename"
     (set_textContent (Js.to_text (Progress.filename progress))))%A.

Definition getDownloadType (formatType : string) : string :=
  if String.eqb formatType "audio" || Js.includes formatType "mp3"
  then "audio" else "video".

(** [startDownload], up to its first [await]. *)
Definition startDownload : Action := λ b,
  match checked_radio (formatsList (document b)) with
  | None => showError "Please select a format" b
  | Some selectedFormat =>
      let url := Js.trim (value (getElementById (document b) "videoUrl")) in
      let formatId := radio_value selectedFormat in
      let downloadType := getDownloadType (radio_data_type selectedFormat) in
      (unhide "progressCard" ;;
       unhide "progressContent" ;;
       hide "downloadComplete" ;;
       hide "downloadError" ;;
       on_element "downloadBtn" (set_disabled true) ;;
       fetch (PostDownload url formatId downloadType) AwaitDownload)%A b
  end.

Definition startProgressTracking : Action := λ b,
  ((if Js.truthy_handle (progressInterval (downloader b))
    then clearInterval (progressInterval (downloader b))
    else skip) ;;
   setInterval_into_progressInterval)%A b.

(** The interval callback, up to its first [await]. *)
Definition tick : Action := λ b,
  match currentDownloadId (downloader b) with
  | Some (String c r) => fetch (GetProgress (String c r)) AwaitProgress b
  | _ => b
  end.

Definition updateProgressUI (progress : Progress.t) : Action :=
  let status := Progress.status progress in
  (on_element "progressBar" (set_style_width (pretty (Progress.percent progress) +:+ "%")) ;;
   on_element "progressPercent" (set_textContent (pretty (Progress.percent progress) +:+ "%")) ;;
   on_element "progressSpeed" (set_textContent (Progress.speed progress)) ;;
   on_element "fileSize" (set_textContent (Progress.filesize progress)) ;;
   on_element "eta" (set_textContent (Progress.eta progress)) ;;
   on_element "statusMessage" (set_textContent (Progress.message progress)) ;;
   on_element "currentFilename"
     (set_textContent (Js.or_else (Progress.filename progress) "-")) ;;
   classList_remove "progressBar" ["bg-success"; "bg-danger"; "bg-warning"; "bg-primary"] ;;
   if String.eqb status "downloading" then classList_add "progressBar" "bg-primary"
   else if String.eqb status "processing" then classList_add "progressBar" "bg-warning"
   else if String.eqb status "error" then classList_add "progressBar" "bg-danger"
   else if String.eqb status "completed" then classList_add "progressBar" "bg-success"
   else skip)%A.

(** *** The methods after their [await] *)

(** The [finally] block of [fetchFormats]. *)
Definition fetchFormats_finally : Action :=
  (on_element "fetchBtn" (set_disabled false) ;;
   on_element "fetchBtn" (set_innerHTML fetch_label))%A.

Definition fetchFormats_resume (r : Reply) : option Action :=
  match r with
  | Rejected message => Some (showError message ;; fetchFormats_finally)%A
  | FormatsReply ok data =>
      Some (if ok
            then displayVideoInfo data ;;
                 displayFormats (VideoInfo.formats data) ;;
                 fetchFormats_finally
            else showError (Js.or_else (VideoInfo.error data)
                              "Failed to fetch video information") ;;
                 fetchFormats_finally)%A
  | _ => None
  end.

Definition startDownload_resume (r : Reply) : option Action :=
  match r with
  | Rejected message =>
      Some (showProgressError message ;;
            on_element "downloadBtn" (set_disabled false))%A
  | DownloadReply ok data =>
      Some (if ok
            then with_downloader (λ c,
                   {| currentDownloadId := DownloadStarted.download_id data;
                      progressInterval := progressInterval c |}) ;;
                 startProgressTracking
            else showProgressError (Js.or_else (DownloadStarted.error data)
                                      "Failed to start download") ;;
                 on_element "downloadBtn" (set_disabled false))%A
  | _ => None
  end.

Definition tick_resume (r : Reply) : option Action :=
  match r with
  | Rejected message => Some (console_error "Error fetching progress:" message)
  | ProgressReply progress =>
      Some (updateProgressUI progress ;;
            if String.eqb (Progress.status progress) "completed"
            then (λ b, clearInterval (progressInterval (downloader b)) b) ;;
                 showDownloadComplete progress ;;
                 on_element "downloadBtn" (set_disabled false)
            else if String.eqb (Progress.status progress) "error"
            then (λ b, clearInterval (progressInterval (downloader b)) b) ;;
                 showProgressError (Progress.message progress) ;;
                 on_element "downloadBtn" (set_disabled false)
            else skip)%A
  | _ => None
  end.

Definition resume (k : Awaiting) (r : Reply) : option Action :=
  match k with
  | AwaitFormats => fetchFormats_resume r
  | AwaitDownload => startDownload_resume r
  | AwaitProgress => tick_resume r
  end.

(** *** Listeners and global functions *)

(** The click listener of [#downloadFileBtn]. *)
Definition open_download_file : Action := λ b,
  match currentDownloadId (downloader b) with
  | Some (String c r) => window_open ("/download_file/" +:+ String c r) b
  | _ => b
  end.

Definition resetDownload : Action :=
  (hide "progressCard" ;;
   hide "downloadError" ;;
   on_element "downloadBtn" (set_disabled false))%A.

(** ** The event loop *)

Inductive Event :=
| InputUrl (text : string)
| SubmitUrlForm
| ClickFormat (i : nat)
| ClickDownloadBtn
| ClickDownloadFileBtn
| CallResetDownload
| IntervalFires (h : N)
| Settle (rid : nat) (r : Reply).

(** One turn of the event loop.  A timer fires only while installed, and
    a reply settles only a suspended call of its kind. *)
Definition step (b : Browser) (e : Event) : Browser :=
  match e with
  | InputUrl text => on_element "videoUrl" (set_value text) b
  | SubmitUrlForm => fetchFormats b
  | ClickFormat i => click_format i b
  | ClickDownloadBtn => startDownload b
  | ClickDownloadFileBtn => open_download_file b
  | CallResetDownload => resetDownload b
  | IntervalFires h => if bool_decide (h ∈ intervals b) then tick b else b
  | Settle rid r =>
      match suspended b !! rid with
      | Some k =>
          match resume k r with
          | Some continue => continue (with_suspended (delete rid) b)
          | None => b
          end
      | None => b
      end
  end.

Definition run (b : Browser) (es : list Event) : Browser := foldl step b es.

(** The browser once [DOMContentLoaded] has constructed the downloader
    over the page [d].  Timer handles are positive integers, handed out
    in increasing order. *)
Definition loaded (d : Document) : Browser :=
  {| downloader := {| currentDownloadId := None; progressInterval := None |};
     document := d;
     intervals := ∅;
     next_handle := 1;
     network := [];
     suspended := ∅;
     alerts := [];
     console := [];
     windows := [] |}.

(** A page with no classes, texts or rows set. *)
Definition blank_element : Element :=
  {| classList := ∅; textContent := ""; innerHTML := ""; value := "";
     disabled := false; style_display := ""; style_width := ""; src := ""; alt := "" |}.
Definition blank_page : Document :=
  {| getElementById := λ _, blank_element; formatsList := [] |}.

(** *** Observations used in the statements *)

Definition hidden (b : Browser) (id : string) : Prop :=
  "d-none" ∈ classList (getElementById (document b) id).

Definition format_rows (b : Browser) : list FormatElement :=
  omap (λ n, match n with FormatDiv r => Some r | NoticeDiv _ _ => None end)
       (formatsList (document b)).

(** Positions, among the format rows, of those marked [selected]; [k] is
    the position of the first row of [rows]. *)
Fixpoint selected_from (k : nat) (rows : list FormatElement) : list nat :=
  match rows with
  | [] => []
  | r :: rest =>
      if bool_decide ("selected" ∈ row_classList r)
      then k :: selected_from (S k) rest
      else selected_from (S k) rest
  end.

Definition selected_rows (b : Browser) : list nat :=
  selected_from 0 (format_rows b).

(** [needle] occurs in [hay]. *)
Definition occurs_in (needle hay : string) : Prop :=
  ∃ before after, hay = before +:+ needle +:+ after.

(** What the click listener of row [i] does to the row at position [j]. *)
Definition click_row (i j : nat) (r : FormatElement) : FormatElement :=
  let r := if is_format_option r then row_classList_remove "selected" r else r in
  if bool_decide (j = i)
  then set_radio_checked true (row_classList_add "selected" r)
  else set_radio_checked false r.

(** *** Example sessions *)

Definition example_url : string := "https://example.com/v".

Definition example_format : FormatOption.t :=
  {| FormatOption.format_id := "22"; FormatOption.type := "video+audio";
     FormatOption.resolution := "720p"; FormatOption.ext := "mp4";
     FormatOption.filesize := "50MB"; FormatOption.quality := 720 |}.

(** A video-only format whose identifier mentions mp3. *)
Definition mp3_named_format : FormatOption.t :=
  {| FormatOption.format_id := "mp3-128"; FormatOption.type := "video";
     FormatOption.resolution := "360p"; FormatOption.ext := "mp4";
     FormatOption.filesize := "9MB"; FormatOption.quality := 360 |}.

Definition example_info (formats : option (list FormatOption.t)) : VideoInfo.t :=
  {| VideoInfo.error := None; VideoInfo.title := "v"; VideoInfo.uploader := "u";
     VideoInfo.duration := "1:00"; VideoInfo.thumbnail := None;
     VideoInfo.formats := formats |}.

Definition started (id : string) : DownloadStarted.t :=
  {| DownloadStarted.error := None; DownloadStarted.download_id := Some id |}.

Definition example_progress (status : string) (percent : Z) : Progress.t :=
  {| Progress.status := status; Progress.percent := percent; Progress.speed := "1MB/s";
     Progress.filesize := "50MB"; Progress.eta := "00:10";
     Progress.message := "state: " +:+ status; Progress.filename := Some "v.mp4" |}.

(** The URL is submitted; request 0 awaits the formats. *)
Definition fetching_events : list Event :=
  [InputUrl example_url; SubmitUrlForm].

(** One format is rendered and download is clicked; request 1 awaits the
    [download_id]. *)
Definition starting_events : list Event :=
  fetching_events
  ++ [Settle 0 (FormatsReply true (example_info (Some [example_format]))); ClickDownloadBtn].

(** Download [abc123] is tracked by timer 1, which has fired once;
    request 2 awaits its progress. *)
Definition polling_events : list Event :=
  starting_events ++ [Settle 1 (DownloadReply true (started "abc123")); IntervalFires 1].

(** While [abc123] is polled, the user resets the panel and clicks
    download again; request 3 awaits the second [download_id]. *)
Definition restarting_events : list Event :=
  polling_events ++ [CallResetDownload; ClickDownloadBtn].

(** What follows the start of the second download: both handles fire,
    a late answer for [abc123] arrives, the new timer fires again. *)
Definition later_events : list Event :=
  [ IntervalFires 1; IntervalFires 2;
    Settle 2 (ProgressReply (example_progress "downloading" 40));
    IntervalFires 2 ].

Definition fetching_session : Browser := run (loaded blank_page) fetching_events.
Definition polling_session : Browser := run (loaded blank_page) polling_events.

(** *** Frames and invariants used in the proofs *)

(** Everything but the page. *)
Definition page_only (a : Action) : Prop :=
  ∀ b, a b = with_document (λ _, document (a b)) b.

(** An observation of the browser that an action leaves unchanged. *)
Definition preserves {A} (obs : Browser → A) (a : Action) : Prop :=
  ∀ b, obs (a b) = obs b.

(** *** One polling loop

    Every installed timer is the one whose handle [this.progressInterval]
    holds; handles are never zero (so the test of [startProgressTracking]
    sees them) and the next handle is not in use. *)
Definition single_loop (b : Browser) : Prop :=
  (∀ h, h ∈ intervals b →
     progressInterval (downloader b) = Some h ∧ h ≠ 0%N ∧ (h < next_handle b)%N)
  ∧ next_handle b ≠ 0%N.

Definition keeps_single_loop (a : Action) : Prop :=
  ∀ b, single_loop b → single_loop (a b).

(** The events that record a new [download_id]: a successful answer to
    [POST /download]. *)
Definition starts_tracking (e : Event) : bool :=
  match e with
  | Settle _ (DownloadReply true _) => true
  | _ => false
  end.

(** ** The rest of the script *)

(** [getQualityClass]; the quality is the vertical resolution, a whole
    number. *)
Definition getQualityClass (quality : Z) : string :=
  if (1080 <=? quality)%Z then "text-success"
  else if (720 <=? quality)%Z then "text-info"
  else if (480 <=? quality)%Z then "text-warning"
  else "text-muted".

(** What [toggleDarkMode] reads and writes: the [data-bs-theme] attribute
    of the root element ([None] while the attribute is absent) and the
    class of the icon of the toggle, an element the page is assumed to
    have. *)
Record Theme := {
  data_bs_theme : option string;
  icon_className : string
}.

Definition toggleDarkMode (t : Theme) : Theme :=
  let currentTheme := data_bs_theme t in
  let newTheme :=
    match currentTheme with
    | Some current => if String.eqb current "dark" then "light" else "dark"
    | None => "dark"
    end in
  {| data_bs_theme := Some newTheme;
     icon_className := if String.eqb newTheme "dark" then "fas fa-moon" else "fas fa-sun" |}.

(** *** Further observations *)

(** The four colour classes of the progress bar. *)
Definition bar_colours : list string :=
  ["bg-success"; "bg-danger"; "bg-warning"; "bg-primary"].

(** [id] was handed out by the server: some successful answer to
    [POST /download] among [es] carries it. *)
Definition returned_by (es : list Event) (id : string) : Prop :=
  ∃ rid data,
    Settle rid (DownloadReply true data) ∈ es
    ∧ DownloadStarted.download_id data = Some id.

(** What every request of the script satisfies. *)
Definition well_formed (req : Request) : Prop :=
  match req with
  | PostFetchFormats url => url ≠ "" ∧ Js.trim url = url
  | PostDownload url _ kind => Js.trim url = url ∧ (kind = "audio" ∨ kind = "video")
  | GetProgress download_id => download_id ≠ ""
  end.

(** The format list is empty, or holds the warning alone, or holds format
    rows only, of which exactly one, at position [i], is marked selected,
    and that one has the checked radio. *)
Definition one_selected (nodes : list Node) : Prop :=
  nodes = [] ∨ nodes = [no_formats_notice]
  ∨ ∃ rows i,
      nodes = FormatDiv <$> rows
      ∧ Forall (λ r, is_format_option r = true) rows
      ∧ (i < length rows)%nat
      ∧ selected_from 0 rows = [i]
      ∧ checked_radio nodes = rows !! i.

Definition starts_white (s : string) : bool :=
  match s with
  | String c _ => Js.is_white c
  | EmptyString => false
  end.

Fixpoint ends_white (s : string) : bool :=
  match s with
  | String c EmptyString => Js.is_white c
  | String _ r => ends_white r
  | EmptyString => false
  end.

(** *** Further example sessions *)


Definition refused : DownloadStarted.t :=
  {| DownloadStarted.error := None; DownloadStarted.download_id := None |}.

(** The row of [example_format] once rendered and selected. *)
Definition example_row : FormatElement :=
  click_row 0 0 (createFormatElement example_format).

(** The URL is typed but not yet submitted. *)
Definition typed_session : Browser := step (loaded blank_page) (InputUrl example_url).

(** The one format of the answer is rendered. *)
Definition rendered_session : Browser :=
  step fetching_session (Settle 0 (FormatsReply true (example_info (Some [example_format])))).

(** Download is clicked; request 1 awaits the [download_id]. *)
Definition starting_session : Browser := run (loaded blank_page) starting_events.


(** The URL is submitted twice; requests 0 and 1 await the formats. *)
Definition fetching_twice_session : Browser :=
  run (loaded blank_page) [InputUrl example_url; SubmitUrlForm; SubmitUrlForm].

(** Two formats are rendered. *)
Definition two_formats_events : list Event :=
  fetching_events
  ++ [Settle 0 (FormatsReply true (example_info (Some [example_format; mp3_named_format])))].

(** *** Strings that pass through the markup unchanged

    [createFormatElement] interpolates the strings of a format into markup
    which the browser parses back ([innerHTML]).  The parse returns a
    string as it was written when the string has no NUL, no carriage
    return, no double quote, no ampersand and no [<]: nothing in it ends
    an attribute, starts a character reference or a tag, or is replaced
    when the input is read. *)
Definition is_markup (c : ascii) : bool :=
  let n := nat_of_ascii c in
  bool_decide (n = 0 ∨ n = 13 ∨ n = 34 ∨ n = 38 ∨ n = 60)%nat.

Fixpoint markup_free (s : string) : bool :=
  match s with
  | String c r => negb (is_markup c) && markup_free r
  | EmptyString => true
  end.

(** Every string of the format that the template interpolates. *)
Definition plain_format (format : FormatOption.t) : bool :=
  markup_free (FormatOption.format_id format)
  && markup_free (FormatOption.type format)
  && markup_free (FormatOption.resolution format)
  && markup_free (FormatOption.ext format)
  && markup_free (FormatOption.filesize format).

(** The replies that can resume a suspended [fetchFormats]. *)
Definition may_answer_fetch (e : Event) : bool :=
  match e with
  | Settle _ (Rejected _) | Settle _ (FormatsReply _ _) => true
  | _ => false
  end.

(** * String facts *)

Lemma append_cons a (s1 s2 : string) : String a s1 +:+ s2 = String a (s1 +:+ s2).
Proof. reflexivity. Qed.

Lemma prefix_spec needle hay :
  String.prefix needle hay = true ↔ ∃ after, hay = needle +:+ after.
Proof.
  revert hay. induction needle as [|a n IH]; intros [|a' h]; simpl.
  - split; [by exists "" | done].
  - split; [by exists (String a' h) | done].
  - split; [done | by intros [? ?]].
  - setoid_rewrite append_cons.
    destruct (Ascii.ascii_dec a a') as [->|Hne].
    + rewrite IH. split; intros [after E]; exists after; congruence.
    + split; [done | intros [after E]; congruence].
Qed.

Lemma includes_spec hay needle :
  Js.includes hay needle = true ↔ occurs_in needle hay.
Proof.
  unfold occurs_in. induction hay as [|c hay IH].
  - destruct needle as [|a n]; simpl; split; try done.
    + by exists "", "".
    + intros ([|? ?] & after & E); discriminate.
  - cbn [Js.includes]. rewrite orb_true_iff, IH, prefix_spec. split.
    + intros [[after E] | (before & after & E)].
      * by exists "", after.
      * exists (String c before), after. by rewrite E.
    + intros ([|c' before] & after & E); [|rewrite append_cons in E].
      * left. by exists after.
      * right. exists before, after. congruence.
Qed.

Lemma getDownloadType_audio formatType :
  getDownloadType formatType = "audio"
  ↔ formatType = "audio" ∨ occurs_in "mp3" formatType.
Proof.
  unfold getDownloadType. rewrite <- includes_spec.
  destruct (String.eqb_spec formatType "audio") as [E|E],
    (Js.includes formatType "mp3"); simpl; intuition congruence.
Qed.

Lemma getDownloadType_video formatType :
  getDownloadType formatType ≠ "audio" → getDownloadType formatType = "video".
Proof. unfold getDownloadType. by destruct (_ || _). Qed.

(** * Frame facts: what an action leaves alone *)

Create HintDb page discriminated.

Lemma page_only_on_element id f : page_only (on_element id f).
Proof. by intros b. Qed.
Lemma page_only_on_formatsList f : page_only (on_formatsList f).
Proof. by intros b. Qed.
Lemma page_only_skip : page_only skip.
Proof. by intros []. Qed.
Lemma page_only_seq a1 a2 : page_only a1 → page_only a2 → page_only (a1 ;; a2)%A.
Proof.
  intros H1 H2 b. unfold seq.
  etrans; [apply H2|]. generalize (document (a2 (a1 b))). intros d.
  by rewrite (H1 b).
Qed.
Lemma page_only_if (c : bool) a1 a2 :
  page_only a1 → page_only a2 → page_only (if c then a1 else a2).
Proof. by destruct c. Qed.
Lemma page_only_classList_add id cls : page_only (classList_add id cls).
Proof. apply page_only_on_element. Qed.
Lemma page_only_classList_remove id cls : page_only (classList_remove id cls).
Proof. apply page_only_on_element. Qed.
Lemma page_only_hide id : page_only (hide id).
Proof. apply page_only_on_element. Qed.
Lemma page_only_unhide id : page_only (unhide id).
Proof. apply page_only_on_element. Qed.
Lemma page_only_click_format i : page_only (click_format i).
Proof. intros b. unfold click_format. repeat case_match; try done; by destruct b. Qed.

#[local] Hint Resolve page_only_on_element page_only_on_formatsList page_only_skip
  page_only_seq page_only_if page_only_classList_add page_only_classList_remove
  page_only_hide page_only_unhide page_only_click_format : page.

Lemma page_only_resetUI : page_only resetUI.
Proof. unfold resetUI. auto 10 with page. Qed.
Lemma page_only_displayVideoInfo v : page_only (displayVideoInfo v).
Proof. unfold displayVideoInfo. auto 10 with page. Qed.
Lemma page_only_displayFormats fs : page_only (displayFormats fs).
Proof.
  unfold displayFormats. apply page_only_seq; [auto with page|].
  assert (page_only (λ b, match first_format_option (formatsList (document b)) with
                          | Some i => click_format i b | None => b end)).
  { intros b. case_match; [apply page_only_click_format | by destruct b]. }
  destruct fs as [[|f fs]|]; auto 10 with page.
Qed.
Lemma page_only_showProgressError m : page_only (showProgressError m).
Proof. unfold showProgressError. auto 10 with page. Qed.
Lemma page_only_showDownloadComplete p : page_only (showDownloadComplete p).
Proof. unfold showDownloadComplete. auto 10 with page. Qed.
Lemma page_only_updateProgressUI p : page_only (updateProgressUI p).
Proof. unfold updateProgressUI. cbv zeta. auto 20 with page. Qed.
Lemma page_only_fetchFormats_finally : page_only fetchFormats_finally.
Proof. unfold fetchFormats_finally. auto with page. Qed.
Lemma page_only_resetDownload : page_only resetDownload.
Proof. unfold resetDownload. auto with page. Qed.

#[local] Hint Resolve page_only_resetUI page_only_displayVideoInfo page_only_displayFormats
  page_only_showProgressError page_only_showDownloadComplete page_only_updateProgressUI
  page_only_fetchFormats_finally page_only_resetDownload : page.

Section page_only_frame.
Context (a : Action) (Ha : page_only a) (b : Browser).

Lemma page_only_downloader : downloader (a b) = downloader b.
Proof. by rewrite Ha. Qed.
Lemma page_only_intervals : intervals (a b) = intervals b.
Proof. by rewrite Ha. Qed.
Lemma page_only_next_handle : next_handle (a b) = next_handle b.
Proof. by rewrite Ha. Qed.
Lemma page_only_network : network (a b) = network b.
Proof. by rewrite Ha. Qed.
Lemma page_only_suspended : suspended (a b) = suspended b.
Proof. by rewrite Ha. Qed.
Lemma page_only_alerts : alerts (a b) = alerts b.
Proof. by rewrite Ha. Qed.
Lemma page_only_console : console (a b) = console b.
Proof. by rewrite Ha. Qed.
Lemma page_only_windows : windows (a b) = windows b.
Proof. by rewrite Ha. Qed.
End page_only_frame.

Lemma preserves_seq {A} (obs : Browser → A) a1 a2 :
  preserves obs a1 → preserves obs a2 → preserves obs (a1 ;; a2)%A.
Proof. intros H1 H2 b. unfold seq. by rewrite H2, H1. Qed.
Lemma preserves_if {A} (obs : Browser → A) (c : bool) a1 a2 :
  preserves obs a1 → preserves obs a2 → preserves obs (if c then a1 else a2).
Proof. by destruct c. Qed.
Lemma preserves_downloader a : page_only a → preserves downloader a.
Proof. intros H b. by apply page_only_downloader. Qed.
Lemma preserves_intervals a : page_only a → preserves intervals a.
Proof. intros H b. by apply page_only_intervals. Qed.
Lemma preserves_next_handle a : page_only a → preserves next_handle a.
Proof. intros H b. by apply page_only_next_handle. Qed.
Lemma preserves_network a : page_only a → preserves network a.
Proof. intros H b. by apply page_only_network. Qed.
Lemma preserves_suspended a : page_only a → preserves suspended a.
Proof. intros H b. by apply page_only_suspended. Qed.
Lemma preserves_alerts a : page_only a → preserves alerts a.
Proof. intros H b. by apply page_only_alerts. Qed.

Create HintDb frame discriminated.
#[local] Hint Resolve preserves_seq preserves_if : frame.
Ltac frame_by_cases :=
  intros ?;
  unfold startProgressTracking, setInterval_into_progressInterval, clearInterval, seq, skip;
  repeat case_match; reflexivity.
#[local] Hint Extern 1 (preserves _ _) => (intros ?; reflexivity) : frame.
#[local] Hint Extern 2 (preserves _ _) => frame_by_cases : frame.
#[local] Hint Extern 3 (preserves downloader _) => (apply preserves_downloader; solve [auto 20 with page]) : frame.
#[local] Hint Extern 3 (preserves intervals _) => (apply preserves_intervals; solve [auto 20 with page]) : frame.
#[local] Hint Extern 3 (preserves next_handle _) => (apply preserves_next_handle; solve [auto 20 with page]) : frame.
#[local] Hint Extern 3 (preserves network _) => (apply preserves_network; solve [auto 20 with page]) : frame.
#[local] Hint Extern 3 (preserves suspended _) => (apply preserves_suspended; solve [auto 20 with page]) : frame.
#[local] Hint Extern 3 (preserves alerts _) => (apply preserves_alerts; solve [auto 20 with page]) : frame.

(** No resumed method issues a request or suspends again. *)
Lemma resume_network k r a :
  resume k r = Some a → preserves network a ∧ preserves suspended a.
Proof.
  destruct k, r as [m|[] d|[] d|p]; simpl; intros [= <-]; split; auto 20 with frame.
Qed.

(** * One polling loop *)

Lemma single_loop_loaded d : single_loop (loaded d).
Proof. split; [set_solver | done]. Qed.

Lemma single_loop_size b : single_loop b → (size (intervals b) ≤ 1)%nat.
Proof.
  intros [H _]. destruct (progressInterval (downloader b)) as [h0|] eqn:E.
  - transitivity (size ({[h0]} : gset N)); [|by rewrite size_singleton].
    apply subseteq_size. intros h Hh. destruct (H h Hh) as [? _]; simplify_eq. set_solver.
  - replace (intervals b) with (∅ : gset N); [rewrite size_empty; lia|].
    symmetry. apply set_eq. intros h. split; [|set_solver]. intros Hh. by destruct (H h Hh).
Qed.

Lemma single_loop_fresh b : single_loop b → next_handle b ∉ intervals b.
Proof. intros [H _] Hin. destruct (H _ Hin) as (_ & _ & ?). lia. Qed.

Lemma keeps_single_loop_frame a :
  preserves downloader a → preserves intervals a → preserves next_handle a →
  keeps_single_loop a.
Proof.
  intros Hd Hi Hn b [H Hnz]. split; [|by rewrite Hn].
  intros h Hh. rewrite Hd, Hn. apply H. by rewrite <- Hi.
Qed.

Lemma keeps_single_loop_seq a1 a2 :
  keeps_single_loop a1 → keeps_single_loop a2 → keeps_single_loop (a1 ;; a2)%A.
Proof. intros H1 H2 b Hb. apply H2, H1, Hb. Qed.

Lemma keeps_single_loop_if (c : bool) a1 a2 :
  keeps_single_loop a1 → keeps_single_loop a2 → keeps_single_loop (if c then a1 else a2).
Proof. by destruct c. Qed.

Lemma startProgressTracking_intervals b :
  single_loop b → intervals (startProgressTracking b) = {[next_handle b]}.
Proof.
  intros [H _]. unfold startProgressTracking, seq, clearInterval, skip.
  apply set_eq; intros h. rewrite elem_of_singleton.
  destruct (progressInterval (downloader b)) as [h0|] eqn:E; simpl.
  - destruct (N.eqb_spec h0 0) as [->|Hne]; simpl;
      rewrite elem_of_union, elem_of_singleton; (split; [intros [Hh|Hh]|by right]);
      try done.
    + destruct (H h Hh) as (? & ? & ?). congruence.
    + apply elem_of_difference in Hh as [Hh Hh']. destruct (H h Hh) as (? & ? & ?).
      rewrite elem_of_singleton in Hh'. congruence.
  - rewrite elem_of_union, elem_of_singleton.
    split; [intros [Hh|Hh]|by right]; try done. by destruct (H h Hh).
Qed.

Lemma startProgressTracking_downloader b :
  downloader (startProgressTracking b)
  = {| currentDownloadId := currentDownloadId (downloader b);
       progressInterval := Some (next_handle b) |}.
Proof.
  unfold startProgressTracking, seq, setInterval_into_progressInterval, clearInterval, skip.
  by repeat case_match.
Qed.

Lemma startProgressTracking_next_handle b :
  next_handle (startProgressTracking b) = N.succ (next_handle b).
Proof.
  unfold startProgressTracking, seq, setInterval_into_progressInterval, clearInterval, skip.
  by repeat case_match.
Qed.

Lemma keeps_single_loop_startProgressTracking : keeps_single_loop startProgressTracking.
Proof.
  intros b Hb. pose proof (startProgressTracking_intervals b Hb) as Hi.
  destruct Hb as [_ Hn].
  split; rewrite startProgressTracking_next_handle; [|lia].
  intros h. rewrite Hi. intros ->%elem_of_singleton.
  rewrite startProgressTracking_downloader. split_and!; [done | done | lia].
Qed.

Lemma clear_progressInterval_intervals b :
  single_loop b → intervals (clearInterval (progressInterval (downloader b)) b) = ∅.
Proof.
  intros [H _]. apply set_eq. intros h. split; [|set_solver]. unfold clearInterval.
  destruct (progressInterval (downloader b)) as [h0|] eqn:E; simpl.
  - intros [Hh Hh']%elem_of_difference. destruct (H h Hh) as (? & ? & ?); simplify_eq.
    set_solver.
  - intros Hh. destruct (H h Hh); congruence.
Qed.

Lemma keeps_single_loop_clear :
  keeps_single_loop (λ b, clearInterval (progressInterval (downloader b)) b).
Proof.
  intros b Hb. pose proof (clear_progressInterval_intervals b Hb) as Hi.
  destruct Hb as [_ Hn]. split.
  - intros h. rewrite Hi. set_solver.
  - unfold clearInterval. by case_match.
Qed.

Lemma keeps_single_loop_record_id v :
  keeps_single_loop (with_downloader (λ c,
    {| currentDownloadId := v; progressInterval := progressInterval c |})).
Proof. by intros b Hb. Qed.

#[local] Hint Resolve keeps_single_loop_seq keeps_single_loop_if
  keeps_single_loop_startProgressTracking keeps_single_loop_clear
  keeps_single_loop_record_id : frame.
#[local] Hint Extern 5 (keeps_single_loop _) =>
  (apply keeps_single_loop_frame; solve [auto 20 with frame]) : frame.

Lemma keeps_single_loop_resume k r a : resume k r = Some a → keeps_single_loop a.
Proof.
  destruct k, r as [m|[] d|[] d|p]; simpl; intros [= <-]; auto 20 with frame.
Qed.

Lemma single_loop_step b e : single_loop b → single_loop (step b e).
Proof.
  intros Hb. destruct e; simpl.
  - by apply keeps_single_loop_frame.
  - unfold fetchFormats. by case_match.
  - unfold click_format. by repeat case_match.
  - unfold startDownload. by case_match.
  - unfold open_download_file. by repeat case_match.
  - by apply keeps_single_loop_frame.
  - unfold tick. by repeat case_match.
  - destruct (suspended b !! rid) as [k|]; [|done].
    destruct (resume k r) as [a|] eqn:E; [|done].
    by apply (keeps_single_loop_resume k r a E).
Qed.

Lemma single_loop_run b es : single_loop b → single_loop (run b es).
Proof.
  revert b. induction es as [|e es IH]; intros b Hb; [done|].
  apply IH, single_loop_step, Hb.
Qed.

Lemma single_loop_reachable d es : single_loop (run (loaded d) es).
Proof. apply single_loop_run, single_loop_loaded. Qed.

(** * Requests issued by a turn of the event loop *)

Lemma tick_network b :
  network (tick b) = network b ++
    (if Js.truthy (currentDownloadId (downloader b))
     then [GetProgress (Js.to_text (currentDownloadId (downloader b)))] else []).
Proof.
  unfold tick. destruct (currentDownloadId (downloader b)) as [[|c r]|]; simpl;
    by rewrite ?app_nil_r.
Qed.

(** A turn only appends to the log, and a progress request it appends is
    scoped to the [download_id] tracked when the turn starts. *)
Lemma step_network b e :
  ∃ new, network (step b e) = network b ++ new
         ∧ ∀ x, GetProgress x ∈ new → currentDownloadId (downloader b) = Some x.
Proof.
  destruct e; simpl.
  - exists []. rewrite app_nil_r. split; [done | by intros x ?%elem_of_nil].
  - unfold fetchFormats. case_match.
    + exists []. rewrite app_nil_r. split; [done | by intros x ?%elem_of_nil].
    + eexists [_]. split; [reflexivity | by intros x [=]%list_elem_of_singleton].
  - exists []. rewrite app_nil_r. split; [|by intros x ?%elem_of_nil].
    apply page_only_network, page_only_click_format.
  - unfold startDownload. case_match.
    + eexists [_]. split; [reflexivity | by intros x [=]%list_elem_of_singleton].
    + exists []. rewrite app_nil_r. split; [done | by intros x ?%elem_of_nil].
  - exists []. rewrite app_nil_r. split; [|by intros x ?%elem_of_nil].
    unfold open_download_file. by repeat case_match.
  - exists []. rewrite app_nil_r. split; [done | by intros x ?%elem_of_nil].
  - case_bool_decide.
    + rewrite tick_network.
      destruct (currentDownloadId (downloader b)) as [[|c r]|]; simpl;
        eexists; (split; [reflexivity|]); try by intros x ?%elem_of_nil.
      by intros x [= <-]%list_elem_of_singleton.
    + exists []. rewrite app_nil_r. split; [done | by intros x ?%elem_of_nil].
  - exists []. rewrite app_nil_r. split; [|by intros x ?%elem_of_nil].
    destruct (suspended b !! rid) as [k|]; [|done].
    destruct (resume k r) as [a|] eqn:E; [|done].
    apply resume_network in E as [E _]. by rewrite E.
Qed.

Lemma preserves_downloader_field {A} (f : VideoDownloader → A) a :
  preserves downloader a → preserves (λ b, f (downloader b)) a.
Proof. intros H b. by rewrite H. Qed.

(** The tracked [download_id] changes only when a download has started. *)
Lemma step_currentDownloadId b e :
  starts_tracking e = false →
  currentDownloadId (downloader (step b e)) = currentDownloadId (downloader b).
Proof.
  intros He. destruct e; simpl.
  - done.
  - unfold fetchFormats. by case_match.
  - unfold click_format. by repeat case_match.
  - unfold startDownload. by case_match.
  - unfold open_download_file. by repeat case_match.
  - done.
  - unfold tick. by repeat case_match.
  - destruct (suspended b !! rid) as [k|]; [|done].
    destruct (resume k r) as [a|] eqn:E; [|done].
    assert (preserves (λ b, currentDownloadId (downloader b)) a) as Ha; [|by rewrite Ha].
    destruct k, r as [m|[] d|[] d|p]; simpl in E, He; simplify_eq;
      by apply preserves_downloader_field; auto 20 with frame.
Qed.

Lemma run_snoc b es e : run b (es ++ [e]) = step (run b es) e.
Proof. unfold run. by rewrite foldl_app. Qed.

Lemma run_network b es :
  Forall (λ e, starts_tracking e = false) es →
  currentDownloadId (downloader (run b es)) = currentDownloadId (downloader b)
  ∧ ∃ new, network (run b es) = network b ++ new
           ∧ ∀ x, GetProgress x ∈ new → currentDownloadId (downloader b) = Some x.
Proof.
  induction es as [|e es IH] using rev_ind; intros Hes.
  - split; [done|]. exists []. rewrite app_nil_r. split; [done | by intros x ?%elem_of_nil].
  - apply Forall_app in Hes as [Hes He]. rewrite Forall_singleton in He.
    destruct (IH Hes) as (Hid & new & Hnew & Hx). rewrite run_snoc.
    split; [rewrite step_currentDownloadId; [exact Hid | exact He]|].
    destruct (step_network (run b es) e) as (new' & Hnew' & Hx').
    exists (new ++ new'). rewrite Hnew', Hnew, app_assoc. split; [done|].
    intros x [?|?]%elem_of_app; [by apply Hx|]. rewrite <- Hid. by apply Hx'.
Qed.

(** * Reading the page after an update *)

Lemma getElementById_on_element_eq id f b :
  getElementById (document (on_element id f b)) id = f (getElementById (document b) id).
Proof. simpl. apply fn_lookup_insert. Qed.

Lemma getElementById_on_element_ne id id' f b :
  id ≠ id' →
  getElementById (document (on_element id f b)) id' = getElementById (document b) id'.
Proof. intros Hne. simpl. by apply fn_lookup_insert_ne. Qed.

Lemma getElementById_on_formatsList f b :
  getElementById (document (on_formatsList f b)) = getElementById (document b).
Proof. reflexivity. Qed.

Lemma getElementById_click_format i b :
  getElementById (document (click_format i b)) = getElementById (document b).
Proof. unfold click_format. by repeat case_match. Qed.

Lemma getElementById_clearInterval v b :
  getElementById (document (clearInterval v b)) = getElementById (document b).
Proof. by destruct v. Qed.

(** Unfolds the visibility helpers and pushes a lookup through the
    updates of other elements. *)
Ltac dom_simpl :=
  unfold hidden, showDownloadComplete, showProgressError, resetUI, resetDownload,
    fetchFormats_finally, hide, unhide, classList_add, classList_remove, seq, skip;
  repeat first
    [ rewrite getElementById_on_element_eq
    | rewrite getElementById_on_element_ne by done
    | rewrite getElementById_on_formatsList
    | rewrite getElementById_click_format
    | rewrite getElementById_clearInterval ];
  simpl.

Lemma tick_tracked b id :
  currentDownloadId (downloader b) = Some id → id ≠ "" →
  tick b = fetch (GetProgress id) AwaitProgress b.
Proof. unfold tick. intros -> ?. by destruct id. Qed.

Lemma interval_fires_tracked b h id :
  h ∈ intervals b → currentDownloadId (downloader b) = Some id → id ≠ "" →
  step b (IntervalFires h) = fetch (GetProgress id) AwaitProgress b.
Proof. intros Hh Hid Hne. simpl. rewrite bool_decide_eq_true_2 by done. by apply tick_tracked. Qed.

Lemma d_none_added (classes : gset string) : "d-none" ∈ classes ∪ {["d-none"]}.
Proof. apply elem_of_union_r. by apply elem_of_singleton. Qed.

Lemma d_none_removed (classes : gset string) :
  "d-none" ∉ classes ∖ list_to_set ["d-none"].
Proof.
  intros [_ H]%elem_of_difference. apply H, elem_of_list_to_set. by left.
Qed.

(** * The claims *)

Lemma document_fetch req k b : document (fetch req k b) = document b.
Proof. reflexivity. Qed.

(** C2 (as amended): invoking [fetchFormats] does not forget the tracked
    download: it leaves the tracked [download_id] and the timers exactly
    as they were.  With a non-empty URL it adds [d-none] to the video-info,
    formats and progress cards and to the completion and error panels,
    removes it from the progress content, disables the fetch button under
    its busy label and issues the fetch request, whose call it suspends,
    and it changes no other element, not the format list, and nothing else
    of the browser.  The [download_id] stays tracked
    through any later events until a download starts, and whenever a
    timer is installed then, its firing asks for the progress of that
    same [download_id]. *)
Theorem fetchFormats_keeps_tracking (b : Browser) :
  let b' := step b SubmitUrlForm in
  let before := getElementById (document b) in
  let after := getElementById (document b') in
  downloader b' = downloader b
  ∧ intervals b' = intervals b
  ∧ next_handle b' = next_handle b
  ∧ formatsList (document b') = formatsList (document b)
  ∧ console b' = console b
  ∧ windows b' = windows b
  ∧ (Js.trim (value (before "videoUrl")) ≠ "" →
     network b' = network b ++ [PostFetchFormats (Js.trim (value (before "videoUrl")))]
     ∧ suspended b' = <[length (network b) := AwaitFormats]> (suspended b)
     ∧ alerts b' = alerts b
     ∧ (∀ id, id ∈ ["videoInfoCard"; "formatsCard"; "progressCard"; "downloadComplete";
                    "downloadError"] →
          hidden b' id
          ∧ after id = set_classList (classList (before id) ∪ {["d-none"]}) (before id))
     ∧ ¬ hidden b' "progressContent"
     ∧ after "progressContent"
       = set_classList (classList (before "progressContent") ∖ list_to_set ["d-none"])
           (before "progressContent")
     ∧ after "fetchBtn" = set_innerHTML fetching_label (set_disabled true (before "fetchBtn"))
     ∧ (∀ id, id ∉ ["videoInfoCard"; "formatsCard"; "progressCard"; "downloadComplete";
                    "downloadError"; "progressContent"; "fetchBtn"] →
          after id = before id))
  ∧ (∀ es, Forall (λ e, starts_tracking e = false) es →
       currentDownloadId (downloader (run b' es)) = currentDownloadId (downloader b)
       ∧ ∀ h id, h ∈ intervals (run b' es) →
           currentDownloadId (downloader b) = Some id → id ≠ "" →
           network (step (run b' es) (IntervalFires h))
           = network (run b' es) ++ [GetProgress id]).
Proof.
  cbv zeta.
  assert (downloader (step b SubmitUrlForm) = downloader b) as Hd.
  { simpl. unfold fetchFormats. by case_match. }
  split_and!; [done | | | | | | |].
  - simpl. unfold fetchFormats. by case_match.
  - simpl. unfold fetchFormats. by case_match.
  - simpl. unfold fetchFormats. by case_match.
  - simpl. unfold fetchFormats. by case_match.
  - simpl. unfold fetchFormats. by case_match.
  - intros Hurl. simpl. unfold fetchFormats.
    destruct (Js.trim _) as [|c r] eqn:E; [done|]. clear Hd.
    unfold seq. rewrite document_fetch.
    split_and!; [done | done | done | | | done | done |].
    + intros id Hid. rewrite !elem_of_cons, elem_of_nil in Hid.
      destruct Hid as [-> | [-> | [-> | [-> | [-> | []]]]]];
        (split; [dom_simpl; apply d_none_added | done]).
    + dom_simpl. apply d_none_removed.
    + intros id Hid.
      assert (∀ x, x ∈ ["videoInfoCard"; "formatsCard"; "progressCard"; "downloadComplete";
                        "downloadError"; "progressContent"; "fetchBtn"] → x ≠ id) as Hne
        by (intros x Hx ->; done).
      unfold resetUI, hide, unhide, classList_add, classList_remove, seq.
      rewrite !getElementById_on_element_ne; try done;
        apply Hne; rewrite !elem_of_cons; auto 10.
  - intros es Hes. destruct (run_network (step b SubmitUrlForm) es Hes) as [Hid _].
    rewrite Hd in Hid. split; [done|].
    intros h id Hh Hcur Hne.
    rewrite (interval_fires_tracked _ h id); [done | done | | done].
    by rewrite Hid.
Qed.

(** C6: a failed poll (network or parse failure) is logged and swallowed:
    the timer stays installed, nothing is shown to the user and no state
    of the downloader changes; the next firing of the timer asks for the
    progress of the tracked [download_id] again. *)
Theorem poll_failure_is_swallowed (b : Browser) (rid : nat) (message : string) :
  suspended b !! rid = Some AwaitProgress →
  let b' := step b (Settle rid (Rejected message)) in
  console b' = console b ++ [("Error fetching progress:", message)]
  ∧ intervals b' = intervals b
  ∧ downloader b' = downloader b
  ∧ document b' = document b
  ∧ alerts b' = alerts b
  ∧ network b' = network b
  ∧ ∀ h id, h ∈ intervals b → currentDownloadId (downloader b) = Some id → id ≠ "" →
      h ∈ intervals b'
      ∧ network (step b' (IntervalFires h)) = network b ++ [GetProgress id].
Proof.
  intros Hrid. simpl. rewrite Hrid. simpl. split_and!; try done.
  intros h id Hh Hid Hne. split; [done|].
  pose proof (interval_fires_tracked
    (console_error "Error fetching progress:" message (with_suspended (delete rid) b))
    h id Hh Hid Hne) as E.
  simpl in E. by rewrite E.
Qed.

(** C7: local validation failures make no network call: [fetchFormats]
    on a URL that is empty once trimmed, and [startDownload] with no
    format selected, only raise their alert. *)
Theorem local_validation_issues_no_request (b : Browser) :
  (Js.trim (value (getElementById (document b) "videoUrl")) = "" →
   step b SubmitUrlForm = alert "Error: Please enter a video URL" b
   ∧ network (step b SubmitUrlForm) = network b
   ∧ suspended (step b SubmitUrlForm) = suspended b)
  ∧ (checked_radio (formatsList (document b)) = None →
     step b ClickDownloadBtn = alert "Error: Please select a format" b
     ∧ network (step b ClickDownloadBtn) = network b
     ∧ suspended (step b ClickDownloadBtn) = suspended b).
Proof.
  split; intros E; simpl.
  - unfold fetchFormats. by rewrite E.
  - unfold startDownload. by rewrite E.
Qed.

(** C10: [resetDownload] hides the progress card and the error panel and
    re-enables the download control, and changes nothing else: not the
    tracked [download_id], not the timer.  A timer installed when it is
    invoked stays installed and its next firing asks for the progress of
    the same [download_id]. *)
Theorem resetDownload_is_cosmetic (b : Browser) :
  let b' := step b CallResetDownload in
  let before := getElementById (document b) in
  downloader b' = downloader b
  ∧ intervals b' = intervals b
  ∧ next_handle b' = next_handle b
  ∧ network b' = network b
  ∧ suspended b' = suspended b
  ∧ alerts b' = alerts b
  ∧ console b' = console b
  ∧ windows b' = windows b
  ∧ formatsList (document b') = formatsList (document b)
  ∧ (∀ id, id ≠ "progressCard" → id ≠ "downloadError" → id ≠ "downloadBtn" →
       getElementById (document b') id = before id)
  ∧ getElementById (document b') "progressCard"
    = set_classList (classList (before "progressCard") ∪ {["d-none"]}) (before "progressCard")
  ∧ getElementById (document b') "downloadError"
    = set_classList (classList (before "downloadError") ∪ {["d-none"]}) (before "downloadError")
  ∧ getElementById (document b') "downloadBtn" = set_disabled false (before "downloadBtn")
  ∧ ∀ h id, h ∈ intervals b → currentDownloadId (downloader b) = Some id → id ≠ "" →
      h ∈ intervals (step b' (IntervalFires h))
      ∧ network (step b' (IntervalFires h)) = network b ++ [GetProgress id].
Proof.
  cbv zeta. split_and!; try done.
  - intros id H1 H2 H3. change (step b CallResetDownload) with (resetDownload b).
    by dom_simpl.
  - intros h id Hh Hid Hne.
    by rewrite (interval_fires_tracked (step b CallResetDownload) h id Hh Hid Hne).
Qed.

Lemma single_loop_resumed d es rid (a : Action) :
  page_only a →
  single_loop (a (with_suspended (delete rid) (run (loaded d) es))).
Proof.
  intros Ha. apply keeps_single_loop_frame; [auto with frame..|].
  apply (keeps_single_loop_frame (with_suspended (delete rid))); [done..|].
  apply single_loop_reachable.
Qed.

(** C3: at most one polling loop is active at any time.  Whenever a
    download starts, [startProgressTracking] leaves exactly one timer
    installed, the new one, whose handle no earlier timer had; from then
    on, until another download starts, at most one timer is installed and
    every progress request is scoped to the [download_id] of that
    download. *)
Theorem one_polling_loop (d : Document) (before later : list Event)
    (rid : nat) (data : DownloadStarted.t) (id2 : string) :
  let b := run (loaded d) before in
  let b2 := step b (Settle rid (DownloadReply true data)) in
  suspended b !! rid = Some AwaitDownload →
  DownloadStarted.download_id data = Some id2 →
  Forall (λ e, starts_tracking e = false) later →
  (size (intervals b) ≤ 1)%nat
  ∧ (next_handle b ∉ intervals b)
  ∧ intervals b2 = {[next_handle b]}
  ∧ progressInterval (downloader b2) = Some (next_handle b)
  ∧ currentDownloadId (downloader b2) = Some id2
  ∧ (size (intervals (run b2 later)) ≤ 1)%nat
  ∧ ∃ new, network (run b2 later) = network b2 ++ new
           ∧ ∀ x, GetProgress x ∈ new → x = id2.
Proof.
  intros b b2 Hrid Hid Hlater.
  assert (single_loop b) as Hb by apply single_loop_reachable.
  assert (single_loop b2) as Hb2 by apply single_loop_step, Hb.
  assert (b2 = startProgressTracking
                 (with_downloader (λ c,
                    {| currentDownloadId := DownloadStarted.download_id data;
                       progressInterval := progressInterval c |})
                    (with_suspended (delete rid) b))) as E.
  { unfold b2. simpl. by rewrite Hrid. }
  assert (currentDownloadId (downloader b2) = Some id2) as Hcur.
  { by rewrite E, <- Hid, startProgressTracking_downloader. }
  split_and!.
  - by apply single_loop_size.
  - by apply single_loop_fresh.
  - rewrite E. by rewrite startProgressTracking_intervals.
  - by rewrite E, startProgressTracking_downloader.
  - done.
  - by apply single_loop_size, single_loop_run.
  - destruct (run_network b2 later Hlater) as (_ & new & Hnew & Hx).
    exists new. split; [done|]. intros x Hin. specialize (Hx x Hin). congruence.
Qed.

Lemma terminal_status_clears d es rid progress (after : Action) :
  page_only after →
  intervals
    ((updateProgressUI progress ;;
      (λ b, clearInterval (progressInterval (downloader b)) b) ;;
      after)%A (with_suspended (delete rid) (run (loaded d) es))) = ∅.
Proof.
  intros Hafter. unfold seq. rewrite (page_only_intervals after) by done.
  apply clear_progressInterval_intervals, single_loop_resumed. auto with page.
Qed.

Lemma no_timer_no_tick b h : intervals b = ∅ → step b (IntervalFires h) = b.
Proof. intros E. simpl. rewrite E. by rewrite bool_decide_eq_false_2 by set_solver. Qed.

(** C4: a progress response with status [completed] stops the polling
    (no timer stays installed, so no tick runs any more), shows the
    completion view with the filename as returned, and re-enables the
    download control. *)
Theorem completed_stops_polling (d : Document) (es : list Event) (rid : nat)
    (progress : Progress.t) :
  let b := run (loaded d) es in
  let b' := step b (Settle rid (ProgressReply progress)) in
  suspended b !! rid = Some AwaitProgress →
  Progress.status progress = "completed" →
  intervals b' = ∅
  ∧ (∀ h, step b' (IntervalFires h) = b')
  ∧ ¬ hidden b' "downloadComplete"
  ∧ hidden b' "progressContent"
  ∧ textContent (getElementById (document b') "completedFilename")
    = Js.to_text (Progress.filename progress)
  ∧ (∀ name, Progress.filename progress = Some name →
       textContent (getElementById (document b') "completedFilename") = name)
  ∧ disabled (getElementById (document b') "downloadBtn") = false.
Proof.
  intros b b' Hrid Hstatus.
  assert (b' = (updateProgressUI progress ;;
                (λ b, clearInterval (progressInterval (downloader b)) b) ;;
                showDownloadComplete progress ;;
                on_element "downloadBtn" (set_disabled false))%A
               (with_suspended (delete rid) b)) as E.
  { unfold b', step, resume, tick_resume. by rewrite Hrid, Hstatus. }
  assert (intervals b' = ∅) as Hi.
  { rewrite E. apply terminal_status_clears. auto with page. }
  assert (textContent (getElementById (document b') "completedFilename")
          = Js.to_text (Progress.filename progress)) as Hname.
  { rewrite E. by dom_simpl. }
  split_and!; try done.
  - intros h. by apply no_timer_no_tick.
  - rewrite E. dom_simpl. apply d_none_removed.
  - rewrite E. dom_simpl. apply d_none_added.
  - intros name Hsome. by rewrite Hname, Hsome.
  - rewrite E. by dom_simpl.
Qed.

(** C5: a progress response with status [error] stops the polling, shows
    the error view with the returned message, and re-enables the download
    control. *)
Theorem error_stops_polling (d : Document) (es : list Event) (rid : nat)
    (progress : Progress.t) :
  let b := run (loaded d) es in
  let b' := step b (Settle rid (ProgressReply progress)) in
  suspended b !! rid = Some AwaitProgress →
  Progress.status progress = "error" →
  intervals b' = ∅
  ∧ (∀ h, step b' (IntervalFires h) = b')
  ∧ ¬ hidden b' "downloadError"
  ∧ hidden b' "progressContent"
  ∧ textContent (getElementById (document b') "errorMessage") = Progress.message progress
  ∧ disabled (getElementById (document b') "downloadBtn") = false.
Proof.
  intros b b' Hrid Hstatus.
  assert (b' = (updateProgressUI progress ;;
                (λ b, clearInterval (progressInterval (downloader b)) b) ;;
                showProgressError (Progress.message progress) ;;
                on_element "downloadBtn" (set_disabled false))%A
               (with_suspended (delete rid) b)) as E.
  { unfold b', step, resume, tick_resume. by rewrite Hrid, Hstatus. }
  assert (intervals b' = ∅) as Hi.
  { rewrite E. apply terminal_status_clears. auto with page. }
  split_and!; try done.
  - intros h. by apply no_timer_no_tick.
  - rewrite E. dom_simpl. apply d_none_removed.
  - rewrite E. dom_simpl. apply d_none_added.
  - rewrite E. by dom_simpl.
  - rewrite E. by dom_simpl.
Qed.

(** * Rendering and selecting formats *)

Lemma click_listener_rows i (rows : list FormatElement) :
  click_listener i (FormatDiv <$> rows) = FormatDiv <$> imap (click_row i) rows.
Proof.
  unfold click_listener. rewrite imap_fmap, fmap_imap. apply imap_ext.
  intros j r _. simpl. unfold click_row. by case_bool_decide.
Qed.

Lemma format_rows_of_rows (rows : list FormatElement) :
  omap (λ n, match n with FormatDiv r => Some r | NoticeDiv _ _ => None end)
       (FormatDiv <$> rows) = rows.
Proof. induction rows as [|r rows IH]; simpl; [done | f_equal; exact IH]. Qed.

Lemma click_row_is_format_option i j r :
  is_format_option r = true → is_format_option (click_row i j r) = true.
Proof.
  unfold click_row. intros H. rewrite H. simpl.
  apply bool_decide_eq_true in H. apply bool_decide_eq_true.
  case_bool_decide; simpl; [apply elem_of_union_l|];
    (apply elem_of_difference; split; [done | by intros ?%elem_of_singleton]).
Qed.

Lemma click_row_selected i j r :
  is_format_option r = true →
  "selected" ∈ row_classList (click_row i j r) ↔ j = i.
Proof.
  unfold click_row. intros ->. case_bool_decide; simpl.
  - split; [done|]. intros _. apply elem_of_union_r. by apply elem_of_singleton.
  - split; [|done]. intros [_ H']%elem_of_difference. destruct H'. by apply elem_of_singleton.
Qed.

Lemma selected_from_click i (rows : list FormatElement) :
  Forall (λ r, is_format_option r = true) rows →
  ∀ k, selected_from k (imap (λ j, click_row i (k + j)) rows)
       = if decide (k ≤ i < k + length rows)%nat then [i] else [].
Proof.
  induction 1 as [|r rows Hr _ IH]; intros k; simpl.
  - case_decide; [lia | done].
  - rewrite (imap_ext _ (λ j, click_row i (S k + j))) by (intros; unfold compose; f_equal; lia).
    rewrite IH. pose proof (click_row_selected i (k + 0) r Hr) as Hsel.
    destruct (decide (k = i)) as [->|Hne].
    + rewrite bool_decide_eq_true_2 by (apply Hsel; lia).
      repeat case_decide; try done; lia.
    + rewrite bool_decide_eq_false_2 by (rewrite Hsel; lia).
      repeat case_decide; try done; lia.
Qed.

Lemma selected_rows_click i (b : Browser) (rows : list FormatElement) :
  formatsList (document b) = FormatDiv <$> rows →
  Forall (λ r, is_format_option r = true) rows →
  (i < length rows)%nat →
  selected_rows (click_format i b) = [i]
  ∧ formatsList (document (click_format i b)) = FormatDiv <$> imap (click_row i) rows
  ∧ Forall (λ r, is_format_option r = true) (imap (click_row i) rows).
Proof.
  intros Hrows Hall Hi.
  assert (formatsList (document (click_format i b))
          = FormatDiv <$> imap (click_row i) rows) as E.
  { unfold click_format. rewrite Hrows, list_lookup_fmap.
    destruct (lookup_lt_is_Some_2 rows i Hi) as [r ->]. simpl.
    by rewrite Hrows, click_listener_rows. }
  split_and!; [|done|].
  - unfold selected_rows, format_rows. rewrite E, format_rows_of_rows.
    transitivity (if decide (0 ≤ i < 0 + length rows)%nat then [i] else []);
      [exact (selected_from_click i rows Hall 0) | case_decide; [done | lia]].
  - apply Forall_forall. intros r' [j [r [Hr ->]]%list_lookup_imap_Some]%list_elem_of_lookup.
    apply click_row_is_format_option.
    by apply (Forall_lookup_1 _ _ _ _ Hall Hr).
Qed.

Lemma createFormatElement_is_format_option format :
  is_format_option (createFormatElement format) = true.
Proof.
  apply bool_decide_eq_true_2.
  change ("format-option" ∈ ({["format-option"]} : gset string)).
  by apply elem_of_singleton.
Qed.

Lemma created_rows_are_format_options (formats : list FormatOption.t) :
  Forall (λ r, is_format_option r = true) (createFormatElement <$> formats).
Proof.
  apply Forall_fmap, Forall_forall. intros f _.
  apply createFormatElement_is_format_option.
Qed.

(** [displayFormats] on a non-empty list: the first row is the one
    [querySelector] finds and clicks. *)
Lemma displayFormats_rendered first rest b :
  displayFormats (Some (first :: rest)) b
  = unhide "formatsCard"
      (click_format 0
         (on_formatsList (λ l, l ++ (FormatDiv ∘ createFormatElement <$> first :: rest))
            (on_element "downloadBtn" (set_style_display "block")
               (on_formatsList (λ _, []) b)))).
Proof.
  unfold displayFormats, seq.
  cbn [on_formatsList on_element with_document document formatsList app
       first_format_option fmap list_fmap compose].
  by rewrite createFormatElement_is_format_option.
Qed.

Lemma displayFormats_rows first rest b :
  let b' := displayFormats (Some (first :: rest)) b in
  let rows := createFormatElement <$> first :: rest in
  formatsList (document b') = FormatDiv <$> imap (click_row 0) rows
  ∧ selected_rows b' = [0%nat]
  ∧ Forall (λ r, is_format_option r = true) (imap (click_row 0) rows)
  ∧ style_display (getElementById (document b') "downloadBtn") = "block"
  ∧ ¬ hidden b' "formatsCard".
Proof.
  cbv zeta. rewrite displayFormats_rendered.
  set (b1 := on_formatsList _ _).
  assert (formatsList (document b1) = FormatDiv <$> (createFormatElement <$> first :: rest))
    as Hrows.
  { unfold b1. simpl. by rewrite <- list_fmap_compose. }
  destruct (selected_rows_click 0 b1 _ Hrows (created_rows_are_format_options _))
    as (Hsel & Hlist & Hall); [simpl; lia|].
  split_and!; try done.
  dom_simpl. apply d_none_removed.
Qed.

Lemma radio_of_click_row i j r :
  radio_value (click_row i j r) = radio_value r
  ∧ radio_data_type (click_row i j r) = radio_data_type r
  ∧ radio_checked (click_row i j r) = bool_decide (j = i).
Proof. unfold click_row. by repeat case_match. Qed.

Lemma checked_radio_click i (rows : list FormatElement) :
  ∀ k, checked_radio (FormatDiv <$> imap (λ j, click_row i (k + j)) rows)
       = if decide (k ≤ i)%nat then click_row i i <$> rows !! (i - k)%nat else None.
Proof.
  induction rows as [|r rows IH]; intros k.
  - by case_decide.
  - rewrite imap_cons, fmap_cons. cbn [checked_radio].
    destruct (radio_of_click_row i (k + 0) r) as (_ & _ & ->).
    rewrite (imap_ext _ (λ j, click_row i (S k + j))) by (intros; unfold compose; f_equal; lia).
    rewrite IH. case_bool_decide as Hk.
    + replace (k + 0)%nat with i by lia. rewrite decide_True by lia.
      by replace (i - k)%nat with 0%nat by lia.
    + repeat case_decide; try done; try lia.
      by replace (i - k)%nat with (S (i - S k)) by lia.
Qed.

Lemma checked_radio_after_click i (b : Browser) (rows : list FormatElement) :
  formatsList (document b) = FormatDiv <$> rows →
  (i < length rows)%nat →
  checked_radio (formatsList (document (click_format i b))) = click_row i i <$> rows !! i.
Proof.
  intros Hrows Hi. unfold click_format. rewrite Hrows, list_lookup_fmap.
  destruct (lookup_lt_is_Some_2 rows i Hi) as [r Hr]. rewrite Hr. simpl.
  rewrite Hrows, click_listener_rows.
  pose proof (checked_radio_click i rows 0) as E. simpl in E.
  rewrite Nat.sub_0_r, Hr in E. exact E.
Qed.

(** The reply to a successful fetch, resumed. *)
Lemma formats_reply_resumed b rid data :
  suspended b !! rid = Some AwaitFormats →
  step b (Settle rid (FormatsReply true data))
  = fetchFormats_finally
      (displayFormats (VideoInfo.formats data)
         (displayVideoInfo data (with_suspended (delete rid) b))).
Proof. intros Hrid. simpl. by rewrite Hrid. Qed.

(** C8: after a successful fetch with at least one format, one row per
    format is rendered and nothing else, exactly one row is marked
    selected, the first one, as a click does, and the download control is
    displayed; clicking any row [i] afterwards leaves exactly row [i]
    selected.  When the strings of the formats are free of markup, the
    value of each radio is the [format_id] of its format and the checked
    input of the page is the radio of the selected row. *)
Theorem first_format_is_selected (b : Browser) (rid : nat) (data : VideoInfo.t)
    (first : FormatOption.t) (rest : list FormatOption.t) :
  suspended b !! rid = Some AwaitFormats →
  VideoInfo.formats data = Some (first :: rest) →
  let b' := step b (Settle rid (FormatsReply true data)) in
  formatsList (document b') = FormatDiv <$> format_rows b'
  ∧ length (format_rows b') = length (first :: rest)
  ∧ selected_rows b' = [0%nat]
  ∧ style_display (getElementById (document b') "downloadBtn") = "block"
  ∧ ¬ hidden b' "formatsCard"
  ∧ (∀ i, (i < length (first :: rest))%nat →
       selected_rows (step b' (ClickFormat i)) = [i]
       ∧ length (format_rows (step b' (ClickFormat i))) = length (first :: rest))
  ∧ (Forall (λ format, plain_format format = true) (first :: rest) →
     radio_value <$> format_rows b' = FormatOption.format_id <$> first :: rest
     ∧ checked_radio (formatsList (document b')) = format_rows b' !! 0%nat
     ∧ ∀ i, (i < length (first :: rest))%nat →
         checked_radio (formatsList (document (step b' (ClickFormat i))))
         = format_rows (step b' (ClickFormat i)) !! i
         ∧ radio_value <$> checked_radio (formatsList (document (step b' (ClickFormat i))))
           = FormatOption.format_id <$> (first :: rest) !! i).
Proof.
  intros Hrid Hformats b'. unfold b'. rewrite (formats_reply_resumed b rid data Hrid), Hformats.
  set (b0 := displayVideoInfo data _).
  destruct (displayFormats_rows first rest b0) as (Hlist & Hsel & Hall & Hdisp & Hvis).
  set (b1 := displayFormats _ b0) in *.
  set (rows := imap (click_row 0) (createFormatElement <$> first :: rest)) in *.
  assert (formatsList (document (fetchFormats_finally b1)) = FormatDiv <$> rows) as Hlist'
    by exact Hlist.
  assert (format_rows (fetchFormats_finally b1) = rows) as Hrows.
  { unfold format_rows. by rewrite Hlist', format_rows_of_rows. }
  assert (length rows = length (first :: rest)) as Hlen.
  { unfold rows. by rewrite length_imap, length_fmap. }
  assert (∀ i, radio_value <$> rows !! i
               = FormatOption.format_id <$> (first :: rest) !! i) as Hvalue.
  { intros i. unfold rows. rewrite list_lookup_imap, list_lookup_fmap.
    destruct ((first :: rest) !! i) as [f|]; [|done]. simpl.
    by destruct (radio_of_click_row 0 i (createFormatElement f)) as (-> & _). }
  assert (∀ i, (i < length (first :: rest))%nat →
            selected_rows (click_format i (fetchFormats_finally b1)) = [i]
            ∧ format_rows (click_format i (fetchFormats_finally b1))
              = imap (click_row i) rows
            ∧ checked_radio (formatsList (document (click_format i (fetchFormats_finally b1))))
              = click_row i i <$> rows !! i) as Hclick.
  { intros i Hi. rewrite <- Hlen in Hi.
    destruct (selected_rows_click i (fetchFormats_finally b1) rows Hlist' Hall Hi)
      as (Hsel' & Hlist'' & _).
    split_and!; [done | |].
    - unfold format_rows. by rewrite Hlist'', format_rows_of_rows.
    - by apply checked_radio_after_click. }
  split_and!.
  - by rewrite Hrows.
  - by rewrite Hrows.
  - exact Hsel.
  - unfold fetchFormats_finally, seq.
    by rewrite !getElementById_on_element_ne by done.
  - unfold hidden, fetchFormats_finally, seq.
    by rewrite !getElementById_on_element_ne by done.
  - intros i Hi.
    change (step (fetchFormats_finally b1) (ClickFormat i))
      with (click_format i (fetchFormats_finally b1)).
    destruct (Hclick i Hi) as (Hsel' & Hrows' & _).
    split; [done | by rewrite Hrows', length_imap].
  - intros _. split_and!.
    + rewrite Hrows. apply list_eq. intros i. by rewrite !list_lookup_fmap, Hvalue.
    + rewrite Hrows, Hlist'. unfold rows. rewrite list_lookup_imap.
      exact (checked_radio_click 0 (createFormatElement <$> first :: rest) 0).
    + intros i Hi.
      change (step (fetchFormats_finally b1) (ClickFormat i))
        with (click_format i (fetchFormats_finally b1)).
      destruct (Hclick i Hi) as (_ & Hrows' & Hchecked').
      split; [by rewrite Hchecked', Hrows', list_lookup_imap|].
      rewrite Hchecked', <- Hvalue. destruct (rows !! i) as [r|]; [|done]. simpl.
      by destruct (radio_of_click_row i i r) as (-> & _).
Qed.

(** C9: a successful fetch with no formats (an empty list or no
    [formats] field) leaves a single warning notice in the list, no format
    row, and the download control undisplayed. *)
Theorem no_formats_hides_download (b : Browser) (rid : nat) (data : VideoInfo.t) :
  suspended b !! rid = Some AwaitFormats →
  VideoInfo.formats data = None ∨ VideoInfo.formats data = Some [] →
  let b' := step b (Settle rid (FormatsReply true data)) in
  formatsList (document b') = [no_formats_notice]
  ∧ format_rows b' = []
  ∧ selected_rows b' = []
  ∧ checked_radio (formatsList (document b')) = None
  ∧ style_display (getElementById (document b') "downloadBtn") = "none".
Proof.
  intros Hrid Hformats b'. unfold b'. rewrite (formats_reply_resumed b rid data Hrid).
  destruct Hformats as [-> | ->]; by split_and!.
Qed.

Lemma startDownload_request b selected :
  checked_radio (formatsList (document b)) = Some selected →
  network (startDownload b) = network b ++
    [PostDownload (Js.trim (value (getElementById (document b) "videoUrl")))
       (radio_value selected) (getDownloadType (radio_data_type selected))].
Proof. intros E. unfold startDownload. by rewrite E. Qed.

Lemma videoUrl_after_displayVideoInfo data b :
  getElementById (document (displayVideoInfo data b)) "videoUrl"
  = getElementById (document b) "videoUrl".
Proof. unfold displayVideoInfo. dom_simpl. case_match; by dom_simpl. Qed.

(** C1 (as amended): for formats whose strings are free of markup, so
    that the rendered [value] and [data-type] attributes are the strings
    of the server, the download kind is derived from the type tag of the
    selected format alone: it is [audio] exactly when the type tag is
    [audio] or contains [mp3], and [video] otherwise (so for the tags
    [video] and [video+audio]); the identifier of the format is sent along
    but plays no part in the kind. *)
Theorem download_kind_follows_type_tag (b : Browser) (rid : nat) (data : VideoInfo.t)
    (formats : list FormatOption.t) (i : nat) (format : FormatOption.t) :
  suspended b !! rid = Some AwaitFormats →
  VideoInfo.formats data = Some formats →
  Forall (λ format, plain_format format = true) formats →
  formats !! i = Some format →
  let b1 := step (step b (Settle rid (FormatsReply true data))) (ClickFormat i) in
  let kind := getDownloadType (FormatOption.type format) in
  network (step b1 ClickDownloadBtn)
  = network b ++
      [PostDownload (Js.trim (value (getElementById (document b) "videoUrl")))
         (FormatOption.format_id format) kind]
  ∧ (kind = "audio"
     ↔ FormatOption.type format = "audio" ∨ occurs_in "mp3" (FormatOption.type format))
  ∧ (kind ≠ "audio" → kind = "video")
  ∧ getDownloadType "audio" = "audio"
  ∧ getDownloadType "video" = "video"
  ∧ getDownloadType "video+audio" = "video".
Proof.
  intros Hrid Hformats _ Hi b1 kind.
  split_and!; [|apply getDownloadType_audio|apply getDownloadType_video|done..].
  destruct formats as [|first rest]; [done|].
  unfold b1. rewrite (formats_reply_resumed b rid data Hrid), Hformats.
  set (b0 := displayVideoInfo data _).
  destruct (displayFormats_rows first rest b0) as (Hlist & _).
  set (b' := fetchFormats_finally _).
  set (rows := imap (click_row 0) (createFormatElement <$> first :: rest)) in *.
  assert (formatsList (document b') = FormatDiv <$> rows) as Hlist' by exact Hlist.
  assert (i < length rows)%nat as Hi'.
  { unfold rows. rewrite length_imap, length_fmap. by eapply lookup_lt_Some. }
  change (step b' (ClickFormat i)) with (click_format i b').
  change (step (click_format i b') ClickDownloadBtn) with (startDownload (click_format i b')).
  pose proof (checked_radio_after_click i b' rows Hlist' Hi') as Hchecked.
  unfold rows in Hchecked.
  rewrite list_lookup_imap, list_lookup_fmap, Hi in Hchecked. simpl in Hchecked.
  rewrite (startDownload_request _ _ Hchecked).
  destruct (radio_of_click_row i i (click_row 0 i (createFormatElement format)))
    as (-> & -> & _).
  destruct (radio_of_click_row 0 i (createFormatElement format)) as (-> & -> & _).
  rewrite (page_only_network (click_format i)) by auto with page.
  rewrite getElementById_click_format.
  f_equal.
  - unfold b', b0. by rewrite !page_only_network by auto with page.
  - unfold b'. rewrite displayFormats_rendered. dom_simpl.
    unfold b0. by rewrite videoUrl_after_displayVideoInfo.
Qed.

(** * The claims on the example sessions *)

(** C1, as stated, fails: the only format offered is video-only and its
    identifier contains [mp3]; it is selected and downloaded, and the kind
    sent is [video]. *)
Lemma download_kind_by_identifier_counterexample :
  occurs_in "mp3" (FormatOption.format_id mp3_named_format)
  ∧ network (run fetching_session
               [ Settle 0 (FormatsReply true (example_info (Some [mp3_named_format])));
                 ClickDownloadBtn ])
    = [PostFetchFormats example_url; PostDownload example_url "mp3-128" "video"].
Proof. split; [by exists "", "-128" | by vm_compute]. Qed.

Lemma download_kind_follows_type_tag_witness :
  suspended fetching_session !! 0%nat = Some AwaitFormats
  ∧ Forall (λ format, plain_format format = true) [example_format; mp3_named_format]
  ∧ network
      (step (step (step fetching_session
                     (Settle 0 (FormatsReply true
                        (example_info (Some [example_format; mp3_named_format])))))
                  (ClickFormat 1))
            ClickDownloadBtn)
    = network fetching_session ++
        [PostDownload
           (Js.trim (value (getElementById (document fetching_session) "videoUrl")))
           "mp3-128" (getDownloadType "video")].
Proof.
  assert (suspended fetching_session !! 0%nat = Some AwaitFormats) as H
    by (vm_compute; reflexivity).
  assert (Forall (λ format, plain_format format = true) [example_format; mp3_named_format])
    as Hplain by (repeat constructor).
  split; [exact H|]. split; [exact Hplain|].
  exact (proj1 (download_kind_follows_type_tag fetching_session 0
                  (example_info (Some [example_format; mp3_named_format]))
                  [example_format; mp3_named_format] 1 mp3_named_format
                  H eq_refl Hplain eq_refl)).
Defined.

(** C2, as stated, fails: [abc123] is tracked and polled; a new fetch
    begins, and [abc123] is still tracked, its timer is still installed and
    the next tick still asks for its progress. *)
Lemma fetchFormats_forgets_session_counterexample :
  currentDownloadId (downloader polling_session) = Some "abc123"
  ∧ currentDownloadId (downloader (step polling_session SubmitUrlForm)) = Some "abc123"
  ∧ 1%N ∈ intervals (step polling_session SubmitUrlForm)
  ∧ network (run polling_session [SubmitUrlForm; IntervalFires 1])
    = [ PostFetchFormats example_url; PostDownload example_url "22" "video";
        GetProgress "abc123"; PostFetchFormats example_url; GetProgress "abc123" ].
Proof. by vm_compute. Qed.

Lemma fetchFormats_keeps_tracking_witness :
  Js.trim (value (getElementById (document polling_session) "videoUrl")) ≠ ""
  ∧ hidden (step polling_session SubmitUrlForm) "progressCard"
  ∧ currentDownloadId (downloader (step polling_session SubmitUrlForm)) = Some "abc123"
  ∧ network (step (run (step polling_session SubmitUrlForm) [CallResetDownload])
               (IntervalFires 1))
    = network (run (step polling_session SubmitUrlForm) [CallResetDownload])
      ++ [GetProgress "abc123"].
Proof.
  assert (Js.trim (value (getElementById (document polling_session) "videoUrl")) ≠ "")
    as Hurl by (vm_compute; discriminate).
  assert (Forall (λ e, starts_tracking e = false) [CallResetDownload]) as Hes
    by (repeat constructor).
  destruct (fetchFormats_keeps_tracking polling_session)
    as (Hd & _ & _ & _ & _ & _ & Hui & Hlater).
  destruct (Hui Hurl) as (_ & _ & _ & Hhidden & _).
  destruct (Hlater [CallResetDownload] Hes) as (_ & Hpoll).
  split; [exact Hurl|].
  split; [apply (Hhidden "progressCard"); rewrite !elem_of_cons; auto|].
  split; [rewrite Hd; vm_compute; reflexivity|].
  apply Hpoll; [vm_compute; reflexivity | vm_compute; reflexivity | discriminate].
Defined.

Lemma one_polling_loop_witness :
  suspended (run (loaded blank_page) restarting_events) !! 3%nat = Some AwaitDownload
  ∧ intervals (step (run (loaded blank_page) restarting_events)
                 (Settle 3 (DownloadReply true (started "second"))))
    = {[2%N]}
  ∧ ∃ new,
      network (run (step (run (loaded blank_page) restarting_events)
                      (Settle 3 (DownloadReply true (started "second"))))
                 later_events)
      = network (step (run (loaded blank_page) restarting_events)
                   (Settle 3 (DownloadReply true (started "second"))))
        ++ new
      ∧ ∀ x, GetProgress x ∈ new → x = "second".
Proof.
  assert (suspended (run (loaded blank_page) restarting_events) !! 3%nat
          = Some AwaitDownload) as H by (vm_compute; reflexivity).
  assert (Forall (λ e, starts_tracking e = false) later_events) as Hlater
    by (repeat constructor).
  assert (next_handle (run (loaded blank_page) restarting_events) = 2%N) as Hnext
    by (vm_compute; reflexivity).
  destruct (one_polling_loop blank_page restarting_events later_events 3
              (started "second") "second" H eq_refl Hlater)
    as (_ & _ & Hi & _ & _ & _ & Hnew).
  rewrite Hnext in Hi.
  split; [exact H|]. split; [exact Hi | exact Hnew].
Defined.

Lemma completed_stops_polling_witness :
  suspended (run (loaded blank_page) polling_events) !! 2%nat = Some AwaitProgress
  ∧ intervals (step (run (loaded blank_page) polling_events)
                 (Settle 2 (ProgressReply (example_progress "completed" 100))))
    = ∅
  ∧ textContent
      (getElementById
         (document (step (run (loaded blank_page) polling_events)
                      (Settle 2 (ProgressReply (example_progress "completed" 100)))))
         "completedFilename") = "v.mp4".
Proof.
  assert (suspended (run (loaded blank_page) polling_events) !! 2%nat
          = Some AwaitProgress) as H by (vm_compute; reflexivity).
  destruct (completed_stops_polling blank_page polling_events 2
              (example_progress "completed" 100) H eq_refl)
    as (Hi & _ & _ & _ & _ & Hname & _).
  split; [exact H|]. split; [exact Hi|].
  exact (Hname "v.mp4" eq_refl).
Defined.

Lemma error_stops_polling_witness :
  suspended (run (loaded blank_page) polling_events) !! 2%nat = Some AwaitProgress
  ∧ intervals (step (run (loaded blank_page) polling_events)
                 (Settle 2 (ProgressReply (example_progress "error" 0))))
    = ∅
  ∧ textContent
      (getElementById
         (document (step (run (loaded blank_page) polling_events)
                      (Settle 2 (ProgressReply (example_progress "error" 0)))))
         "errorMessage") = Progress.message (example_progress "error" 0).
Proof.
  assert (suspended (run (loaded blank_page) polling_events) !! 2%nat
          = Some AwaitProgress) as H by (vm_compute; reflexivity).
  destruct (error_stops_polling blank_page polling_events 2
              (example_progress "error" 0) H eq_refl)
    as (Hi & _ & _ & _ & Hmessage & _).
  split; [exact H|]. split; [exact Hi | exact Hmessage].
Defined.

Lemma poll_failure_is_swallowed_witness :
  suspended polling_session !! 2%nat = Some AwaitProgress
  ∧ 1%N ∈ intervals (step polling_session (Settle 2 (Rejected "Failed to fetch")))
  ∧ network (step (step polling_session (Settle 2 (Rejected "Failed to fetch")))
               (IntervalFires 1))
    = network polling_session ++ [GetProgress "abc123"].
Proof.
  assert (suspended polling_session !! 2%nat = Some AwaitProgress) as H
    by (vm_compute; reflexivity).
  destruct (poll_failure_is_swallowed polling_session 2 "Failed to fetch" H)
    as (_ & _ & _ & _ & _ & _ & Hnext).
  split; [exact H|].
  apply (Hnext 1%N "abc123"); [vm_compute; reflexivity | vm_compute; reflexivity | discriminate].
Defined.

Lemma local_validation_issues_no_request_witness :
  Js.trim (value (getElementById
                    (document (step (loaded blank_page) (InputUrl "   "))) "videoUrl")) = ""
  ∧ network (step (step (loaded blank_page) (InputUrl "   ")) SubmitUrlForm) = []
  ∧ checked_radio (formatsList (document (loaded blank_page))) = None
  ∧ network (step (loaded blank_page) ClickDownloadBtn) = [].
Proof.
  destruct (local_validation_issues_no_request (step (loaded blank_page) (InputUrl "   ")))
    as (Hurl & _).
  destruct (local_validation_issues_no_request (loaded blank_page)) as (_ & Hformat).
  split; [vm_compute; reflexivity|].
  split; [exact (proj1 (proj2 (Hurl eq_refl)))|].
  split; [reflexivity|].
  exact (proj1 (proj2 (Hformat eq_refl))).
Defined.

Lemma first_format_is_selected_witness :
  suspended fetching_session !! 0%nat = Some AwaitFormats
  ∧ Forall (λ format, plain_format format = true) [example_format; mp3_named_format]
  ∧ selected_rows
      (step fetching_session
         (Settle 0 (FormatsReply true
            (example_info (Some [example_format; mp3_named_format]))))) = [0%nat]
  ∧ selected_rows
      (step (step fetching_session
               (Settle 0 (FormatsReply true
                  (example_info (Some [example_format; mp3_named_format])))))
            (ClickFormat 1)) = [1%nat]
  ∧ radio_value
      <$> format_rows
            (step fetching_session
               (Settle 0 (FormatsReply true
                  (example_info (Some [example_format; mp3_named_format])))))
    = FormatOption.format_id <$> [example_format; mp3_named_format].
Proof.
  assert (suspended fetching_session !! 0%nat = Some AwaitFormats) as H
    by (vm_compute; reflexivity).
  assert (Forall (λ format, plain_format format = true) [example_format; mp3_named_format])
    as Hplain by (repeat constructor).
  destruct (first_format_is_selected fetching_session 0
              (example_info (Some [example_format; mp3_named_format]))
              example_format [mp3_named_format] H eq_refl)
    as (_ & _ & Hsel & _ & _ & Hclick & Hvalues).
  split; [exact H|]. split; [exact Hplain|]. split; [exact Hsel|].
  split; [apply (Hclick 1%nat); simpl; lia|].
  exact (proj1 (Hvalues Hplain)).
Defined.

Lemma no_formats_hides_download_witness :
  suspended fetching_session !! 0%nat = Some AwaitFormats
  ∧ formatsList
      (document (step fetching_session (Settle 0 (FormatsReply true (example_info (Some []))))))
    = [no_formats_notice]
  ∧ style_display
      (getElementById
         (document (step fetching_session (Settle 0 (FormatsReply true (example_info None)))))
         "downloadBtn") = "none".
Proof.
  assert (suspended fetching_session !! 0%nat = Some AwaitFormats) as H
    by (vm_compute; reflexivity).
  split; [exact H|]. split.
  - exact (proj1 (no_formats_hides_download fetching_session 0 (example_info (Some []))
                    H (or_intror eq_refl))).
  - destruct (no_formats_hides_download fetching_session 0 (example_info None)
                H (or_introl eq_refl)) as (_ & _ & _ & _ & Hbtn).
    exact Hbtn.
Defined.

Lemma resetDownload_is_cosmetic_witness :
  1%N ∈ intervals polling_session
  ∧ currentDownloadId (downloader polling_session) = Some "abc123"
  ∧ 1%N ∈ intervals (step (step polling_session CallResetDownload) (IntervalFires 1))
  ∧ network (step (step polling_session CallResetDownload) (IntervalFires 1))
    = network polling_session ++ [GetProgress "abc123"].
Proof.
  assert (1%N ∈ intervals polling_session) as Hh by (vm_compute; reflexivity).
  assert (currentDownloadId (downloader polling_session) = Some "abc123") as Hid
    by (vm_compute; reflexivity).
  destruct (resetDownload_is_cosmetic polling_session)
    as (_ & _ & _ & _ & _ & _ & _ & _ & _ & _ & _ & _ & _ & Hnext).
  split; [exact Hh|]. split; [exact Hid|].
  apply (Hnext 1%N "abc123" Hh Hid). discriminate.
Defined.

(** * Further frame facts *)

Lemma formatsList_on_element id f b :
  formatsList (document (on_element id f b)) = formatsList (document b).
Proof. reflexivity. Qed.

(** [displayFormats] touches the list, [#downloadBtn] and [#formatsCard]. *)
Lemma getElementById_displayFormats formats b id :
  id ≠ "downloadBtn" → id ≠ "formatsCard" →
  getElementById (document (displayFormats formats b)) id = getElementById (document b) id.
Proof.
  intros H1 H2. destruct formats as [[|first rest]|].
  - unfold displayFormats. by dom_simpl.
  - rewrite displayFormats_rendered. by dom_simpl.
  - unfold displayFormats. by dom_simpl.
Qed.

Lemma getElementById_displayVideoInfo data b id :
  id ∉ ["videoInfoCard"; "videoTitle"; "videoUploader"; "videoDuration"; "videoThumbnail"] →
  getElementById (document (displayVideoInfo data b)) id = getElementById (document b) id.
Proof.
  intros Hid. unfold displayVideoInfo. dom_simpl.
  assert (∀ x, x ∈ ["videoInfoCard"; "videoTitle"; "videoUploader"; "videoDuration";
                    "videoThumbnail"] → x ≠ id) as Hne by (intros x Hx ->; done).
  destruct (Js.truthy _); unfold seq;
    rewrite !getElementById_on_element_ne; try done; apply Hne; set_solver.
Qed.

(** * The fetch of the formats, beyond the claims *)


(** * The start of a download, beyond the claims *)

(** X3: a failed start of a download (a response that is not ok, or a
    network or parse failure) shows the error panel in place of the
    progress content, with the error message of the server or the generic
    one, and enables the download control again; it raises no alert,
    installs no timer and leaves the tracked download as it was. *)
Theorem download_failure_is_shown_inline (b : Browser) (rid : nat) (r : Reply)
    (message : string) :
  suspended b !! rid = Some AwaitDownload →
  (r = Rejected message
   ∨ ∃ data, r = DownloadReply false data
             ∧ message = Js.or_else (DownloadStarted.error data) "Failed to start download") →
  let b' := step b (Settle rid r) in
  textContent (getElementById (document b') "errorMessage") = message
  ∧ ¬ hidden b' "downloadError"
  ∧ hidden b' "progressContent"
  ∧ disabled (getElementById (document b') "downloadBtn") = false
  ∧ alerts b' = alerts b
  ∧ downloader b' = downloader b
  ∧ intervals b' = intervals b
  ∧ network b' = network b.
Proof.
  intros Hrid Hr b'.
  assert (b' = on_element "downloadBtn" (set_disabled false)
                 (showProgressError message (with_suspended (delete rid) b))) as E.
  { unfold b'. simpl. rewrite Hrid. by destruct Hr as [-> | (data & -> & ->)]. }
  rewrite E. split_and!; try done; dom_simpl; auto using d_none_added, d_none_removed.
Qed.

(** X5: the download request carries the URL that the field holds when
    download is clicked, trimmed, whatever URL the formats were fetched
    for: the field is not validated again, and an emptied field gives a
    request with an empty URL. *)
Theorem download_sends_the_current_url (b : Browser) (text : string)
    (selected : FormatElement) :
  checked_radio (formatsList (document b)) = Some selected →
  network (run b [InputUrl text; ClickDownloadBtn])
  = network b ++
      [PostDownload (Js.trim text) (radio_value selected)
         (getDownloadType (radio_data_type selected))].
Proof.
  intros Hsel. simpl. unfold startDownload.
  rewrite formatsList_on_element, Hsel. by dom_simpl.
Qed.

(** * What the script sends *)

Lemma trimStart_starts s : starts_white (Js.trimStart s) = false.
Proof.
  induction s as [|c r IH]; [done|]. simpl.
  destruct (Js.is_white c) eqn:E; [done | by simpl].
Qed.

Lemma trimStart_fixed s : starts_white s = false → Js.trimStart s = s.
Proof. destruct s as [|c r]; [done|]. simpl. by intros ->. Qed.

Lemma trimEnd_ends s : ends_white (Js.trimEnd s) = false.
Proof.
  induction s as [|c r IH]; [done|]. simpl.
  destruct (Js.trimEnd r) as [|c' r'].
  - destruct (Js.is_white c) eqn:E; [done | by simpl].
  - exact IH.
Qed.

Lemma trimEnd_fixed s : ends_white s = false → Js.trimEnd s = s.
Proof.
  induction s as [|c r IH]; [done|]. destruct r as [|c' r'].
  - simpl. by intros ->.
  - intros H. change (ends_white (String c' r') = false) in H.
    change (Js.trimEnd (String c (String c' r')))
      with (match Js.trimEnd (String c' r') with
            | EmptyString => if Js.is_white c then EmptyString else String c EmptyString
            | String a r0 => String c (String a r0)
            end).
    by rewrite (IH H).
Qed.

Lemma trimEnd_starts s : starts_white s = false → starts_white (Js.trimEnd s) = false.
Proof.
  destruct s as [|c r]; [done|]. simpl. intros Hc.
  destruct (Js.trimEnd r); [by rewrite Hc | done].
Qed.

Lemma trim_trim s : Js.trim (Js.trim s) = Js.trim s.
Proof.
  unfold Js.trim.
  rewrite (trimStart_fixed (Js.trimEnd (Js.trimStart s)))
    by apply trimEnd_starts, trimStart_starts.
  apply trimEnd_fixed, trimEnd_ends.
Qed.

Lemma getDownloadType_cases formatType :
  getDownloadType formatType = "audio" ∨ getDownloadType formatType = "video".
Proof. unfold getDownloadType. destruct (_ || _); auto. Qed.

(** The requests of one turn: each is well formed, and a progress request
    is for the tracked download. *)
Lemma step_issues b e :
  ∃ new, network (step b e) = network b ++ new
         ∧ ∀ req, req ∈ new →
             well_formed req
             ∧ ∀ x, req = GetProgress x → currentDownloadId (downloader b) = Some x.
Proof.
  assert (∀ l : list Request, l = l ++ []) as Hnil by (intros; by rewrite app_nil_r).
  destruct e; simpl.
  - exists []. split; [done | by intros ? ?%elem_of_nil].
  - unfold fetchFormats. destruct (Js.trim _) as [|c u] eqn:E.
    + exists []. split; [done | by intros ? ?%elem_of_nil].
    + eexists [_]. split; [reflexivity|]. intros req ->%list_elem_of_singleton.
      split; [|done]. split; [done|]. rewrite <- E. apply trim_trim.
  - exists []. split; [|by intros ? ?%elem_of_nil].
    rewrite app_nil_r. apply page_only_network, page_only_click_format.
  - unfold startDownload. case_match.
    + eexists [_]. split; [reflexivity|]. intros req ->%list_elem_of_singleton.
      split; [|done]. split; [apply trim_trim | apply getDownloadType_cases].
    + exists []. split; [done | by intros ? ?%elem_of_nil].
  - exists []. split; [|by intros ? ?%elem_of_nil].
    unfold open_download_file. rewrite app_nil_r. by repeat case_match.
  - exists []. split; [done | by intros ? ?%elem_of_nil].
  - case_bool_decide; [|exists []; split; [done | by intros ? ?%elem_of_nil]].
    unfold tick. destruct (currentDownloadId (downloader b)) as [[|c u]|] eqn:E;
      try (exists []; split; [done | by intros ? ?%elem_of_nil]).
    eexists [_]. split; [reflexivity|]. intros req ->%list_elem_of_singleton.
    split; [done | by intros x [= <-]].
  - exists []. split; [|by intros ? ?%elem_of_nil]. rewrite app_nil_r.
    destruct (suspended b !! rid) as [k|]; [|done].
    destruct (resume k r) as [a|] eqn:E; [|done].
    apply resume_network in E as [E _]. by rewrite E.
Qed.

Lemma preserves_windows a : page_only a → preserves windows a.
Proof. intros H b. by apply page_only_windows. Qed.

#[local] Hint Extern 3 (preserves windows _) =>
  (apply preserves_windows; solve [auto 20 with page]) : frame.

(** The windows one turn opens: the file of the tracked download. *)
Lemma step_opens b e :
  ∃ new, windows (step b e) = windows b ++ new
         ∧ ∀ u, u ∈ new →
             ∃ id, currentDownloadId (downloader b) = Some id ∧ id ≠ ""
                   ∧ u = "/download_file/" +:+ id.
Proof.
  assert (∀ b', windows b' = windows b →
          ∃ new, windows b' = windows b ++ new
                 ∧ ∀ u, u ∈ new →
                     ∃ id, currentDownloadId (downloader b) = Some id ∧ id ≠ ""
                           ∧ u = "/download_file/" +:+ id) as Hframe.
  { intros b' ->. exists []. rewrite app_nil_r. split; [done | by intros ? ?%elem_of_nil]. }
  destruct e; unfold step.
  - by apply Hframe.
  - apply Hframe. unfold fetchFormats. by case_match.
  - apply Hframe. unfold click_format. by repeat case_match.
  - apply Hframe. unfold startDownload. by case_match.
  - unfold open_download_file.
    destruct (currentDownloadId (downloader b)) as [[|c u]|] eqn:E; try by apply Hframe.
    eexists [_]. split; [reflexivity|]. intros ? ->%list_elem_of_singleton.
    by exists (String c u).
  - by apply Hframe.
  - apply Hframe. case_bool_decide; [|done]. unfold tick. by repeat case_match.
  - apply Hframe.
    destruct (suspended b !! rid) as [k|]; [|done].
    destruct (resume k r) as [a|] eqn:E; [|done].
    assert (preserves windows a) as Ha; [|by rewrite Ha].
    destruct k, r as [m|[] d|[] d|p]; simpl in E; simplify_eq; auto 20 with frame.
Qed.

Lemma step_currentDownloadId_cases b e :
  currentDownloadId (downloader (step b e)) = currentDownloadId (downloader b)
  ∨ ∃ rid data, e = Settle rid (DownloadReply true data)
                ∧ currentDownloadId (downloader (step b e)) = DownloadStarted.download_id data.
Proof.
  destruct (starts_tracking e) eqn:He; [|left; by apply step_currentDownloadId].
  destruct e as [| | | | | | |rid r]; try done. destruct r as [|? ?|[] data|]; try done.
  unfold step. destruct (suspended b !! rid) as [[]|]; try by left.
  right. exists rid, data. split; [done|]. unfold resume, startDownload_resume, seq.
  by rewrite startProgressTracking_downloader.
Qed.


Lemma returned_by_snoc es e id : returned_by es id → returned_by (es ++ [e]) id.
Proof.
  intros (rid & data & Hin & Hid). exists rid, data. split; [|done].
  apply elem_of_app. by left.
Qed.

(** X7: every [download_id] the script uses was handed out by the
    server.  In every reachable state, the tracked id, the id of every
    progress request sent so far and the id in every download-file window
    opened so far were returned by a successful answer to
    [POST /download]. *)
Theorem download_ids_come_from_the_server (d : Document) (es : list Event) :
  let b := run (loaded d) es in
  (∀ id, currentDownloadId (downloader b) = Some id → returned_by es id)
  ∧ (∀ x, GetProgress x ∈ network b → returned_by es x)
  ∧ (∀ u, u ∈ windows b → ∃ id, u = "/download_file/" +:+ id ∧ returned_by es id).
Proof.
  cbv zeta. induction es as [|e es (Hcur & Hnet & Hwin)] using rev_ind.
  - split_and!; [done | by intros ? ?%elem_of_nil | by intros ? ?%elem_of_nil].
  - rewrite run_snoc. split_and!.
    + intros id Hid.
      destruct (step_currentDownloadId_cases (run (loaded d) es) e)
        as [E | (rid & data & -> & E)]; rewrite E in Hid.
      * by apply returned_by_snoc, Hcur.
      * exists rid, data. split; [|done]. apply elem_of_app. right. by left.
    + intros x Hx. apply returned_by_snoc.
      destruct (step_issues (run (loaded d) es) e) as (new & Enew & Hnew).
      rewrite Enew in Hx. apply elem_of_app in Hx as [Hx|Hx]; [by apply Hnet|].
      apply Hcur. by apply (Hnew _ Hx).
    + intros u Hu.
      destruct (step_opens (run (loaded d) es) e) as (new & Enew & Hnew).
      rewrite Enew in Hu. apply elem_of_app in Hu as [Hu|Hu].
      * destruct (Hwin u Hu) as (id & -> & Hid). exists id. split; [done|].
        by apply returned_by_snoc.
      * destruct (Hnew u Hu) as (id & Hid & _ & ->). exists id. split; [done|].
        by apply returned_by_snoc, Hcur.
Qed.

(** X8: every request the script ever sends is well formed: a
    fetch-formats request carries a URL that is not empty and has no
    white space around it, a download request carries a trimmed URL and
    the kind [audio] or [video], and a progress request names a
    [download_id] that is not empty. *)
Theorem requests_are_well_formed (d : Document) (es : list Event) (req : Request) :
  req ∈ network (run (loaded d) es) → well_formed req.
Proof.
  induction es as [|e es IH] using rev_ind; [by intros ?%elem_of_nil|].
  rewrite run_snoc.
  destruct (step_issues (run (loaded d) es) e) as (new & Enew & Hnew).
  rewrite Enew. intros [Hin|Hin]%elem_of_app; [by apply IH | by apply Hnew].
Qed.

(** * Progress replies, beyond the claims *)

(** Splits on the status of a progress reply, in the order of the tests of
    the script, and evaluates the tests. *)
Ltac status_cases progress :=
  let st := fresh "st" in
  let Hst := fresh "Hst" in
  remember (Progress.status progress) as st eqn:Hst;
  destruct (String.eqb_spec st "downloading") as [->|?];
    [|destruct (String.eqb_spec st "processing") as [->|?];
      [|destruct (String.eqb_spec st "error") as [->|?];
        [|destruct (String.eqb_spec st "completed") as [->|?]]]];
  cbn [String.eqb Ascii.eqb Bool.eqb andb].

Lemma progress_reply_resumed b rid progress :
  suspended b !! rid = Some AwaitProgress →
  step b (Settle rid (ProgressReply progress))
  = (updateProgressUI progress ;;
     if String.eqb (Progress.status progress) "completed"
     then (λ b, clearInterval (progressInterval (downloader b)) b) ;;
          showDownloadComplete progress ;;
          on_element "downloadBtn" (set_disabled false)
     else if String.eqb (Progress.status progress) "error"
     then (λ b, clearInterval (progressInterval (downloader b)) b) ;;
          showProgressError (Progress.message progress) ;;
          on_element "downloadBtn" (set_disabled false)
     else skip)%A (with_suspended (delete rid) b).
Proof. intros Hrid. unfold step. by rewrite Hrid. Qed.

Lemma not_in_difference (classes removed : gset string) cls :
  cls ∈ removed → cls ∉ classes ∖ removed.
Proof. intros H [_ H']%elem_of_difference. done. Qed.

(** X9: after any progress reply the progress bar carries the colour
    class of the reported status and none of the three others:
    [bg-primary] exactly for [downloading], [bg-warning] for
    [processing], [bg-danger] for [error], [bg-success] for [completed],
    and no colour class for any other status; its other classes are
    kept. *)
Theorem progress_bar_shows_one_colour (b : Browser) (rid : nat) (progress : Progress.t) :
  suspended b !! rid = Some AwaitProgress →
  let bar := classList (getElementById (document b) "progressBar") in
  let bar' := classList (getElementById
                 (document (step b (Settle rid (ProgressReply progress)))) "progressBar") in
  ("bg-primary" ∈ bar' ↔ Progress.status progress = "downloading")
  ∧ ("bg-warning" ∈ bar' ↔ Progress.status progress = "processing")
  ∧ ("bg-danger" ∈ bar' ↔ Progress.status progress = "error")
  ∧ ("bg-success" ∈ bar' ↔ Progress.status progress = "completed")
  ∧ ∀ cls, cls ∉ bar_colours → (cls ∈ bar' ↔ cls ∈ bar).
Proof.
  intros Hrid. cbv zeta. rewrite (progress_reply_resumed b rid progress Hrid).
  unfold updateProgressUI, bar_colours. cbv zeta.
  status_cases progress; dom_simpl; clear Hrid;
    (split_and!; [..|intros cls Hcls; rewrite !elem_of_cons, elem_of_nil in Hcls]);
    rewrite ?elem_of_union, ?elem_of_difference, ?elem_of_union, ?elem_of_singleton,
      ?elem_of_empty;
    intuition (discriminate || congruence).
Qed.

(** X10: every progress reply, whatever its status, refreshes the
    progress display with the values of the reply: the percentage (a
    whole number from 0 to 100), as width of the bar and as text, the
    speed, the file size, the remaining time, the message, and the
    filename, or a dash while there is none. *)
Theorem progress_reply_refreshes_display (b : Browser) (rid : nat) (progress : Progress.t) :
  suspended b !! rid = Some AwaitProgress →
  (0 ≤ Progress.percent progress ≤ 100)%Z →
  let after := getElementById (document (step b (Settle rid (ProgressReply progress)))) in
  style_width (after "progressBar") = pretty (Progress.percent progress) +:+ "%"
  ∧ textContent (after "progressPercent") = pretty (Progress.percent progress) +:+ "%"
  ∧ textContent (after "progressSpeed") = Progress.speed progress
  ∧ textContent (after "fileSize") = Progress.filesize progress
  ∧ textContent (after "eta") = Progress.eta progress
  ∧ textContent (after "statusMessage") = Progress.message progress
  ∧ textContent (after "currentFilename") = Js.or_else (Progress.filename progress) "-".
Proof.
  intros Hrid _. cbv zeta. rewrite (progress_reply_resumed b rid progress Hrid).
  unfold updateProgressUI. cbv zeta.
  status_cases progress; by dom_simpl.
Qed.

(** X11: a progress reply whose status is neither [completed] nor [error]
    keeps the polling going: the timer, the tracked download, the format
    list and every element other than the seven of the progress display
    are as before, so no panel is switched and the download control stays
    as it was. *)
Theorem other_status_keeps_polling (b : Browser) (rid : nat) (progress : Progress.t) :
  suspended b !! rid = Some AwaitProgress →
  Progress.status progress ≠ "completed" →
  Progress.status progress ≠ "error" →
  let b' := step b (Settle rid (ProgressReply progress)) in
  intervals b' = intervals b
  ∧ downloader b' = downloader b
  ∧ alerts b' = alerts b
  ∧ network b' = network b
  ∧ formatsList (document b') = formatsList (document b)
  ∧ ∀ id, id ∉ ["progressBar"; "progressPercent"; "progressSpeed"; "fileSize"; "eta";
                "statusMessage"; "currentFilename"] →
      getElementById (document b') id = getElementById (document b) id.
Proof.
  intros Hrid Hc He. cbv zeta. rewrite (progress_reply_resumed b rid progress Hrid).
  apply String.eqb_neq in Hc, He. rewrite Hc, He. unfold seq, skip.
  assert (page_only (updateProgressUI progress)) as Hpage by auto with page.
  split_and!.
  - by rewrite (page_only_intervals _ Hpage).
  - by rewrite (page_only_downloader _ Hpage).
  - by rewrite (page_only_alerts _ Hpage).
  - by rewrite (page_only_network _ Hpage).
  - unfold updateProgressUI. cbv zeta. by status_cases progress.
  - intros id Hid.
    assert (∀ x, x ∈ ["progressBar"; "progressPercent"; "progressSpeed"; "fileSize"; "eta";
                      "statusMessage"; "currentFilename"] → x ≠ id) as Hne
      by (intros x Hx ->; done).
    unfold updateProgressUI, classList_add, classList_remove, seq, skip. cbv zeta.
    clear Hc He. status_cases progress;
      rewrite ?getElementById_on_element_ne; try done;
      apply Hne; rewrite !elem_of_cons; auto 10.
Qed.

(** * The answer to a fetch, beyond the claims *)

Lemma suspended_after_settle b rid r rid' :
  rid ≠ rid' → suspended (step b (Settle rid r)) !! rid' = suspended b !! rid'.
Proof.
  intros Hne. unfold step. destruct (suspended b !! rid) as [k|] eqn:Hk; [|done].
  destruct (resume k r) as [a|] eqn:E; [|done].
  apply resume_network in E as [_ E]. rewrite E. simpl. by apply lookup_delete_ne.
Qed.

(** The list once a successful answer with formats is rendered. *)
Lemma formats_reply_rows b rid data first rest :
  suspended b !! rid = Some AwaitFormats →
  VideoInfo.formats data = Some (first :: rest) →
  let b' := step b (Settle rid (FormatsReply true data)) in
  let rows := imap (click_row 0) (createFormatElement <$> first :: rest) in
  formatsList (document b') = FormatDiv <$> rows
  ∧ Forall (λ r, is_format_option r = true) rows
  ∧ selected_from 0 rows = [0%nat]
  ∧ checked_radio (formatsList (document b')) = rows !! 0%nat.
Proof.
  intros Hrid Hformats. cbv zeta. rewrite (formats_reply_resumed b rid data Hrid), Hformats.
  set (b0 := displayVideoInfo data _).
  destruct (displayFormats_rows first rest b0) as (Hlist & Hsel & Hall & _).
  change (formatsList (document (fetchFormats_finally
            (displayFormats (Some (first :: rest)) b0))))
    with (formatsList (document (displayFormats (Some (first :: rest)) b0))).
  rewrite Hlist. split_and!; [done | done | |].
  - unfold selected_rows, format_rows in Hsel. by rewrite Hlist, format_rows_of_rows in Hsel.
  - pose proof (checked_radio_click 0 (createFormatElement <$> first :: rest) 0) as E.
    simpl in E. rewrite list_lookup_imap. exact E.
Qed.

(** X12: a successful answer to the fetch shows the video card with the
    title, the uploader and the duration of the answer; the thumbnail is
    the one of the answer, with the title as alternative text, or, when
    the answer has none (or an empty one), the placeholder image, the
    alternative text being left as it was. *)
Theorem fetch_success_shows_video_info (b : Browser) (rid : nat) (data : VideoInfo.t) :
  suspended b !! rid = Some AwaitFormats →
  let b' := step b (Settle rid (FormatsReply true data)) in
  let after := getElementById (document b') in
  ¬ hidden b' "videoInfoCard"
  ∧ textContent (after "videoTitle") = VideoInfo.title data
  ∧ textContent (after "videoUploader") = VideoInfo.uploader data
  ∧ textContent (after "videoDuration") = VideoInfo.duration data
  ∧ src (after "videoThumbnail")
    = (if Js.truthy (VideoInfo.thumbnail data)
       then Js.to_text (VideoInfo.thumbnail data) else no_thumbnail)
  ∧ alt (after "videoThumbnail")
    = (if Js.truthy (VideoInfo.thumbnail data)
       then VideoInfo.title data
       else alt (getElementById (document b) "videoThumbnail")).
Proof.
  intros Hrid. cbv zeta. rewrite (formats_reply_resumed b rid data Hrid).
  unfold hidden, fetchFormats_finally, seq.
  rewrite !getElementById_on_element_ne by done.
  rewrite !getElementById_displayFormats by done.
  unfold displayVideoInfo.
  destruct (Js.truthy (VideoInfo.thumbnail data));
    (split_and!; [dom_simpl; apply d_none_removed | by dom_simpl..]).
Qed.

(** X13: an answer without formats never reveals the formats card: the
    reply leaves the card as it was, and in the ordinary flow, fetch then
    answer, the card is hidden, so that the warning notice is put into a
    list that is not shown. *)
Theorem no_formats_notice_stays_hidden (b b1 : Browser) (rid : nat) (data : VideoInfo.t) :
  Js.trim (value (getElementById (document b) "videoUrl")) ≠ "" →
  suspended b1 !! rid = Some AwaitFormats →
  VideoInfo.formats data = None ∨ VideoInfo.formats data = Some [] →
  getElementById (document (step b1 (Settle rid (FormatsReply true data)))) "formatsCard"
  = getElementById (document b1) "formatsCard"
  ∧ (let b' := run b [SubmitUrlForm; Settle (length (network b)) (FormatsReply true data)] in
     formatsList (document b') = [no_formats_notice]
     ∧ hidden b' "formatsCard").
Proof.
  intros Hurl Hrid Hformats.
  assert (∀ b2 rid2, suspended b2 !! rid2 = Some AwaitFormats →
            getElementById (document (step b2 (Settle rid2 (FormatsReply true data))))
              "formatsCard" = getElementById (document b2) "formatsCard"
            ∧ formatsList (document (step b2 (Settle rid2 (FormatsReply true data))))
              = [no_formats_notice]) as Hframe.
  { intros b2 rid2 H2. rewrite (formats_reply_resumed b2 rid2 data H2).
    unfold fetchFormats_finally, seq. rewrite !getElementById_on_element_ne by done.
    split; [|by destruct Hformats as [-> | ->]].
    assert (getElementById (document (displayVideoInfo data (with_suspended (delete rid2) b2)))
              "formatsCard" = getElementById (document b2) "formatsCard") as <-.
    { rewrite getElementById_displayVideoInfo; [done|]. rewrite !elem_of_cons, elem_of_nil.
      intuition discriminate. }
    destruct Hformats as [-> | ->]; unfold displayFormats; by dom_simpl. }
  split; [by apply Hframe|].
  cbv zeta. change (run b [SubmitUrlForm; Settle (length (network b)) (FormatsReply true data)])
    with (step (step b SubmitUrlForm) (Settle (length (network b)) (FormatsReply true data))).
  assert (suspended (step b SubmitUrlForm) !! length (network b) = Some AwaitFormats
          ∧ hidden (step b SubmitUrlForm) "formatsCard") as [Hsusp Hhid].
  { simpl. unfold fetchFormats. destruct (Js.trim _) as [|c u]; [done|]. split.
    - unfold seq, fetch. simpl. apply lookup_insert_eq.
    - dom_simpl. apply d_none_added. }
  destruct (Hframe _ _ Hsusp) as [Hcard Hlist]. split; [done|].
  unfold hidden. by rewrite Hcard.
Qed.

(** X14: answers are rendered in the order they arrive, not in the order
    of their requests: when two fetches are outstanding, the rows, one per
    format, the selection and the video title shown after both answers are
    those of the answer that arrived last, whichever request it belongs
    to; when the strings of its formats are free of markup, the values of
    the radios are its [format_id]s. *)
Theorem last_formats_answer_wins (b : Browser) (rid1 rid2 : nat) (data1 data2 : VideoInfo.t)
    (first : FormatOption.t) (rest : list FormatOption.t) :
  rid1 ≠ rid2 →
  suspended b !! rid1 = Some AwaitFormats →
  suspended b !! rid2 = Some AwaitFormats →
  VideoInfo.formats data2 = Some (first :: rest) →
  let b' := run b [Settle rid1 (FormatsReply true data1);
                   Settle rid2 (FormatsReply true data2)] in
  length (format_rows b') = length (first :: rest)
  ∧ selected_rows b' = [0%nat]
  ∧ textContent (getElementById (document b') "videoTitle") = VideoInfo.title data2
  ∧ (Forall (λ format, plain_format format = true) (first :: rest) →
     radio_value <$> format_rows b' = FormatOption.format_id <$> first :: rest).
Proof.
  intros Hne H1 H2 Hformats. cbv zeta.
  change (run b [Settle rid1 (FormatsReply true data1); Settle rid2 (FormatsReply true data2)])
    with (step (step b (Settle rid1 (FormatsReply true data1)))
            (Settle rid2 (FormatsReply true data2))).
  set (b1 := step b (Settle rid1 (FormatsReply true data1))).
  assert (suspended b1 !! rid2 = Some AwaitFormats) as H2'.
  { unfold b1. by rewrite suspended_after_settle. }
  destruct (formats_reply_rows b1 rid2 data2 first rest H2' Hformats)
    as (Hlist & _ & Hsel & _).
  split_and!.
  - unfold format_rows. by rewrite Hlist, format_rows_of_rows, length_imap, length_fmap.
  - unfold selected_rows, format_rows. by rewrite Hlist, format_rows_of_rows.
  - rewrite (formats_reply_resumed b1 rid2 data2 H2').
    unfold fetchFormats_finally, seq.
    rewrite !getElementById_on_element_ne by done.
    rewrite !getElementById_displayFormats by done.
    unfold displayVideoInfo. destruct (Js.truthy _); by dom_simpl.
  - intros _. unfold format_rows. rewrite Hlist, format_rows_of_rows.
    apply list_eq. intros i. rewrite list_lookup_fmap, list_lookup_imap, !list_lookup_fmap.
    destruct ((first :: rest) !! i) as [f|]; [|done]. simpl.
    by destruct (radio_of_click_row 0 i (createFormatElement f)) as (-> & _).
Qed.

(** * The selection, in every reachable state *)

Lemma formatsList_updateProgressUI progress b :
  formatsList (document (updateProgressUI progress b)) = formatsList (document b).
Proof. unfold updateProgressUI. cbv zeta. by status_cases progress. Qed.

Lemma formatsList_clearInterval v b :
  formatsList (document (clearInterval v b)) = formatsList (document b).
Proof. by destruct v. Qed.

Lemma formatsList_resume k r a b :
  resume k r = Some a →
  (∀ data, r ≠ FormatsReply true data) →
  formatsList (document (a b)) = formatsList (document b).
Proof.
  intros E Hr.
  destruct k, r as [m|[] d|[] d|p]; simpl in E; simplify_eq; try done;
    try by destruct (Hr d).
  - unfold seq, startProgressTracking, setInterval_into_progressInterval, clearInterval, skip.
    by repeat case_match.
  - unfold seq, skip.
    destruct (String.eqb _ "completed"); [|destruct (String.eqb _ "error")];
      unfold showDownloadComplete, showProgressError, hide, unhide, classList_add,
        classList_remove, seq;
      rewrite ?formatsList_on_element, ?formatsList_clearInterval;
      apply formatsList_updateProgressUI.
Qed.

Lemma one_selected_click i b :
  one_selected (formatsList (document b)) →
  one_selected (formatsList (document (click_format i b))).
Proof.
  intros [E | [E | (rows & i0 & E & Hall & Hi0 & Hsel & Hchecked)]].
  - unfold click_format. by rewrite E, lookup_nil; left.
  - unfold click_format. rewrite E. destruct i; simpl; right; by left.
  - destruct (decide (i < length rows)%nat) as [Hi|Hi].
    + destruct (selected_rows_click i b rows E Hall Hi) as (Hsel' & Hlist & Hall').
      right. right. exists (imap (click_row i) rows), i.
      split_and!; [done | done | by rewrite length_imap | |].
      * unfold selected_rows, format_rows in Hsel'.
        by rewrite Hlist, format_rows_of_rows in Hsel'.
      * rewrite (checked_radio_after_click i b rows E Hi). by rewrite list_lookup_imap.
    + unfold click_format. rewrite E, list_lookup_fmap, lookup_ge_None_2 by lia.
      simpl. right. right. by exists rows, i0.
Qed.

Lemma one_selected_step b e :
  one_selected (formatsList (document b)) →
  one_selected (formatsList (document (step b e))).
Proof.
  intros Hb. destruct e; unfold step; try done.
  - unfold fetchFormats. by case_match.
  - by apply one_selected_click.
  - unfold startDownload. by case_match.
  - unfold open_download_file. by repeat case_match.
  - case_bool_decide; [|done]. unfold tick. by repeat case_match.
  - destruct (suspended b !! rid) as [k|] eqn:Hrid; [|done].
    destruct (resume k r) as [a|] eqn:E; [|done].
    assert ((∃ data, r = FormatsReply true data) ∨ ∀ data, r ≠ FormatsReply true data)
      as [[data ->]|Hr].
    { destruct r as [|[] data| |]; try by right. left. by exists data. }
    + destruct k; try done. simpl in E. injection E as <-.
      destruct (VideoInfo.formats data) as [[|first rest]|] eqn:Hformats.
      * right. by left.
      * pose proof (formats_reply_rows b rid data first rest Hrid Hformats) as H.
        cbv zeta in H. rewrite (formats_reply_resumed b rid data Hrid), Hformats in H.
        destruct H as (Hlist & Hall & Hsel & Hchecked).
        right. right. eexists _, 0%nat. split_and!; [exact Hlist | done | | done | done].
        rewrite length_imap, length_fmap. simpl. lia.
      * right. by left.
    + by rewrite (formatsList_resume k r a _ E Hr).
Qed.

Lemma one_selected_reachable d es :
  formatsList d = [] → one_selected (formatsList (document (run (loaded d) es))).
Proof.
  intros Hd. induction es as [|e es IH] using rev_ind; [by left|].
  rewrite run_snoc. by apply one_selected_step.
Qed.



(** X16: in every such state, a click on the format row at position [i]
    leaves exactly that row selected and checks its radio, whatever was
    selected before. *)
Theorem click_selects_the_row (d : Document) (es : list Event) (i : nat) :
  formatsList d = [] →
  let b := run (loaded d) es in
  (i < length (format_rows b))%nat →
  selected_rows (step b (ClickFormat i)) = [i]
  ∧ radio_value <$> checked_radio (formatsList (document (step b (ClickFormat i))))
    = radio_value <$> format_rows b !! i
  ∧ length (format_rows (step b (ClickFormat i))) = length (format_rows b).
Proof.
  intros Hd b Hi.
  destruct (one_selected_reachable d es Hd)
    as [E | [E | (rows & i0 & E & Hall & _)]]; fold b in E;
    unfold format_rows in Hi |- *; rewrite E in Hi |- *; try (simpl in Hi; lia).
  rewrite format_rows_of_rows in Hi |- *.
  change (step b (ClickFormat i)) with (click_format i b).
  destruct (selected_rows_click i b rows E Hall Hi) as (Hsel & Hlist & _).
  split_and!; [done | |].
  - rewrite (checked_radio_after_click i b rows E Hi).
    destruct (rows !! i) as [r|]; [|done]. simpl.
    by destruct (radio_of_click_row i i r) as (-> & _).
  - unfold format_rows. by rewrite Hlist, format_rows_of_rows, length_imap.
Qed.

(** * The theme toggle and the quality tiers *)

(** X17: [toggleDarkMode] turns a dark theme into the light one, with the
    sun icon, and any other theme, or none, into the dark one, with the
    moon icon; so two toggles restore a theme that was dark or light, and
    from the first toggle on the toggle alternates between the two. *)
Theorem toggleDarkMode_alternates (t : Theme) :
  (data_bs_theme t = Some "dark" →
     toggleDarkMode t = {| data_bs_theme := Some "light"; icon_className := "fas fa-sun" |})
  ∧ (data_bs_theme t ≠ Some "dark" →
     toggleDarkMode t = {| data_bs_theme := Some "dark"; icon_className := "fas fa-moon" |})
  ∧ (data_bs_theme t = Some "dark" ∨ data_bs_theme t = Some "light" →
     data_bs_theme (toggleDarkMode (toggleDarkMode t)) = data_bs_theme t)
  ∧ toggleDarkMode (toggleDarkMode (toggleDarkMode t)) = toggleDarkMode t.
Proof.
  unfold toggleDarkMode. destruct t as [[theme|] icon]; simpl.
  - destruct (String.eqb_spec theme "dark") as [->|Hne]; simpl;
      (split_and!; [try done; congruence | try done; congruence | | done]).
    + by intros _.
    + intros [[= ->] | [= ->]]; done.
  - split_and!; try done. by intros [|].
Qed.

(** X18: [getQualityClass] sorts the qualities into four tiers that cover
    every quality and do not overlap: 1080 and above, 720 to 1079, 480 to
    719, and below 480. *)
Theorem getQualityClass_tiers (quality : Z) :
  (getQualityClass quality = "text-success" ↔ (1080 ≤ quality)%Z)
  ∧ (getQualityClass quality = "text-info" ↔ (720 ≤ quality < 1080)%Z)
  ∧ (getQualityClass quality = "text-warning" ↔ (480 ≤ quality < 720)%Z)
  ∧ (getQualityClass quality = "text-muted" ↔ (quality < 480)%Z).
Proof.
  unfold getQualityClass.
  destruct (Z.leb_spec 1080 quality), (Z.leb_spec 720 quality), (Z.leb_spec 480 quality);
    (split_and!; split; intros H'; try done; try lia).
Qed.

(** X19: only a download start changes the tracked download: through any
    other events (completion, errors, resets, new fetches, clicks) a
    tracked [download_id] stays tracked, and the download-file button
    keeps opening the file of that download, in a new window and without
    any request. *)
Theorem file_button_opens_the_tracked_download (b : Browser) (es : list Event) (id : string) :
  currentDownloadId (downloader b) = Some id →
  id ≠ "" →
  Forall (λ e, starts_tracking e = false) es →
  let b' := run b es in
  currentDownloadId (downloader b') = Some id
  ∧ windows (step b' ClickDownloadFileBtn) = windows b' ++ ["/download_file/" +:+ id]
  ∧ network (step b' ClickDownloadFileBtn) = network b'
  ∧ document (step b' ClickDownloadFileBtn) = document b'.
Proof.
  intros Hid Hne Hes b'.
  assert (currentDownloadId (downloader b') = Some id) as Hid'.
  { unfold b'. by rewrite (proj1 (run_network b es Hes)). }
  split; [done|]. simpl. unfold open_download_file. rewrite Hid'.
  by destruct id.
Qed.

(** * The controls while a call is suspended *)

Lemma suspended_fetch_ne req k b (rid : nat) :
  (rid < length (network b))%nat →
  suspended (fetch req k b) !! rid = suspended b !! rid.
Proof. intros Hlt. unfold fetch. simpl. apply lookup_insert_ne. lia. Qed.

Lemma step_network_length b e : (length (network b) ≤ length (network (step b e)))%nat.
Proof. destruct (step_network b e) as (new & -> & _). rewrite length_app. lia. Qed.

(** A turn that is not an answer to a fetch leaves a disabled fetch
    button disabled and a suspended fetch suspended. *)
Lemma busy_step (rid : nat) b e :
  may_answer_fetch e = false →
  disabled (getElementById (document b) "fetchBtn") = true
  ∧ innerHTML (getElementById (document b) "fetchBtn") = fetching_label
  ∧ suspended b !! rid = Some AwaitFormats
  ∧ (rid < length (network b))%nat →
  disabled (getElementById (document (step b e)) "fetchBtn") = true
  ∧ innerHTML (getElementById (document (step b e)) "fetchBtn") = fetching_label
  ∧ suspended (step b e) !! rid = Some AwaitFormats
  ∧ (rid < length (network (step b e)))%nat.
Proof.
  intros He (Hdis & Hlabel & Hrid & Hlt).
  assert (rid < length (network (step b e)))%nat as Hlt'.
  { pose proof (step_network_length b e). lia. }
  assert (∀ b0, document (startProgressTracking b0) = document b0) as Hspt.
  { intros b0. unfold startProgressTracking, seq, setInterval_into_progressInterval,
      clearInterval, skip. by repeat case_match. }
  assert (getElementById (document (step b e)) "fetchBtn"
          = getElementById (document b) "fetchBtn"
          ∨ e = SubmitUrlForm) as [Hkeep| ->].
  { destruct e as [text| |i| | | |h|rid' r]; [left|by right|left..]; unfold step.
    + by dom_simpl.
    + by rewrite getElementById_click_format.
    + unfold startDownload. case_match; [by dom_simpl | done].
    + unfold open_download_file. by repeat case_match.
    + by dom_simpl.
    + case_bool_decide; [|done]. unfold tick. by repeat case_match.
    + destruct (suspended b !! rid') as [k|] eqn:Hk; [|done].
      destruct k, r as [m|ok d|[] d|p]; try done; unfold resume, startDownload_resume.
      * unfold seq. by rewrite Hspt.
      * unfold tick_resume, updateProgressUI. cbv zeta. status_cases p; by dom_simpl. }
  - rewrite Hkeep. split_and!; [done|done| |done].
    destruct e as [text| |i| | | |h|rid' r].
    + exact Hrid.
    + simpl. unfold fetchFormats. case_match; [done|].
      unfold seq. by rewrite suspended_fetch_ne.
    + simpl. by rewrite (page_only_suspended (click_format i)) by auto with page.
    + simpl. unfold startDownload. case_match; [|done].
      unfold seq. by rewrite suspended_fetch_ne.
    + simpl. unfold open_download_file. by repeat case_match.
    + exact Hrid.
    + simpl. case_bool_decide; [|done]. unfold tick.
      destruct (currentDownloadId (downloader b)) as [[|c u]|]; try done.
      by rewrite suspended_fetch_ne.
    + destruct (decide (rid' = rid)) as [->|Hne]; [|by rewrite suspended_after_settle].
      unfold step. rewrite Hrid. by destruct r as [m|ok d|[] d|p].
  - split_and!; [| | |done]; simpl; unfold fetchFormats; (case_match; [done|]).
    + by dom_simpl.
    + by dom_simpl.
    + unfold seq. by rewrite suspended_fetch_ne.
Qed.

(** X2: submitting a non-empty URL disables the fetch button, under its
    busy label, and suspends the call; through any events that are not
    answers to a fetch the button stays disabled and the call suspended,
    and the answer to the call, success, server error or failure, then
    enables the button again under its idle label.  So does the answer to
    any suspended fetch, whether or not another fetch is still
    suspended. *)
Theorem fetch_button_is_busy_during_the_call (b : Browser) (es : list Event) :
  Js.trim (value (getElementById (document b) "videoUrl")) ≠ "" →
  Forall (λ e, may_answer_fetch e = false) es →
  let b1 := run (step b SubmitUrlForm) es in
  disabled (getElementById (document b1) "fetchBtn") = true
  ∧ innerHTML (getElementById (document b1) "fetchBtn") = fetching_label
  ∧ suspended b1 !! length (network b) = Some AwaitFormats
  ∧ (∀ r, is_Some (fetchFormats_resume r) →
       disabled (getElementById (document (step b1 (Settle (length (network b)) r))) "fetchBtn")
       = false
       ∧ innerHTML (getElementById (document (step b1 (Settle (length (network b)) r)))
                      "fetchBtn") = fetch_label
       ∧ suspended (step b1 (Settle (length (network b)) r)) !! length (network b) = None)
  ∧ ∀ b2 rid r,
      suspended b2 !! rid = Some AwaitFormats →
      is_Some (fetchFormats_resume r) →
      disabled (getElementById (document (step b2 (Settle rid r))) "fetchBtn") = false
      ∧ innerHTML (getElementById (document (step b2 (Settle rid r))) "fetchBtn") = fetch_label
      ∧ suspended (step b2 (Settle rid r)) !! rid = None.
Proof.
  intros Hurl Hes. cbv zeta.
  assert (∀ b2 rid r,
            suspended b2 !! rid = Some AwaitFormats →
            is_Some (fetchFormats_resume r) →
            disabled (getElementById (document (step b2 (Settle rid r))) "fetchBtn") = false
            ∧ innerHTML (getElementById (document (step b2 (Settle rid r))) "fetchBtn")
              = fetch_label
            ∧ suspended (step b2 (Settle rid r)) !! rid = None) as Hanswer.
  { intros b2 rid r Hrid [a Ha].
    assert (∃ a', a = (a' ;; fetchFormats_finally)%A
                  ∧ preserves suspended a') as (a' & -> & Hsusp).
    { destruct r as [m|[] data| |]; simpl in Ha; simplify_eq.
      - eexists. split; [reflexivity|]. auto with frame.
      - exists (displayVideoInfo data ;; displayFormats (VideoInfo.formats data))%A.
        split; [reflexivity|]. auto 20 with frame.
      - eexists. split; [reflexivity|]. auto with frame. }
    unfold step. rewrite Hrid. unfold resume. rewrite Ha. unfold seq at 1 2 3.
    split_and!; [by dom_simpl | by dom_simpl |].
    rewrite (page_only_suspended fetchFormats_finally) by auto with page.
    rewrite Hsusp. simpl. apply lookup_delete_eq. }
  assert (disabled (getElementById (document (run (step b SubmitUrlForm) es)) "fetchBtn") = true
          ∧ innerHTML (getElementById (document (run (step b SubmitUrlForm) es)) "fetchBtn")
            = fetching_label
          ∧ suspended (run (step b SubmitUrlForm) es) !! length (network b) = Some AwaitFormats
          ∧ (length (network b) < length (network (run (step b SubmitUrlForm) es)))%nat)
    as (H1 & H2 & H3 & _).
  { induction es as [|e es IH] using rev_ind.
    - simpl. unfold fetchFormats. destruct (Js.trim _) as [|c u]; [done|].
      split_and!; [by dom_simpl | by dom_simpl | |].
      + unfold seq, fetch. simpl. apply lookup_insert_eq.
      + unfold seq, fetch. simpl. rewrite length_app. simpl. lia.
    - apply Forall_app in Hes as [Hes He]. rewrite Forall_singleton in He.
      rewrite run_snoc. by apply busy_step, IH. }
  split_and!; [done | done | done | | exact Hanswer].
  intros r Hr. by apply Hanswer.
Qed.

(** X4: a click on download with a format selected shows the progress
    card and its content, hides the completion and error panels, disables
    the download control and issues exactly one request, whose call is
    suspended; the click itself changes neither the tracked download nor
    the timers, and the tracked [download_id] then stays the same through
    any events until a download starts.  A successful answer to the
    request, as to any suspended start, records the returned
    [download_id] and changes nothing on the page, so the control stays
    disabled. *)
Theorem download_click_shows_progress (b : Browser) (selected : FormatElement)
    (es : list Event) :
  checked_radio (formatsList (document b)) = Some selected →
  Forall (λ e, starts_tracking e = false) es →
  let b1 := step b ClickDownloadBtn in
  ¬ hidden b1 "progressCard"
  ∧ ¬ hidden b1 "progressContent"
  ∧ hidden b1 "downloadComplete"
  ∧ hidden b1 "downloadError"
  ∧ disabled (getElementById (document b1) "downloadBtn") = true
  ∧ network b1
    = network b ++
        [PostDownload (Js.trim (value (getElementById (document b) "videoUrl")))
           (radio_value selected) (getDownloadType (radio_data_type selected))]
  ∧ suspended b1 !! length (network b) = Some AwaitDownload
  ∧ downloader b1 = downloader b
  ∧ intervals b1 = intervals b
  ∧ currentDownloadId (downloader (run b1 es)) = currentDownloadId (downloader b)
  ∧ (∀ data,
       document (step b1 (Settle (length (network b)) (DownloadReply true data))) = document b1
       ∧ currentDownloadId
           (downloader (step b1 (Settle (length (network b)) (DownloadReply true data))))
         = DownloadStarted.download_id data
       ∧ disabled
           (getElementById
              (document (step b1 (Settle (length (network b)) (DownloadReply true data))))
              "downloadBtn") = true)
  ∧ ∀ b2 rid data,
      suspended b2 !! rid = Some AwaitDownload →
      document (step b2 (Settle rid (DownloadReply true data))) = document b2
      ∧ currentDownloadId (downloader (step b2 (Settle rid (DownloadReply true data))))
        = DownloadStarted.download_id data
      ∧ alerts (step b2 (Settle rid (DownloadReply true data))) = alerts b2.
Proof.
  intros Hsel Hes. cbv zeta.
  assert (downloader (step b ClickDownloadBtn) = downloader b) as Hd.
  { simpl. unfold startDownload. by rewrite Hsel. }
  assert (∀ b2 rid data,
            suspended b2 !! rid = Some AwaitDownload →
            document (step b2 (Settle rid (DownloadReply true data))) = document b2
            ∧ currentDownloadId (downloader (step b2 (Settle rid (DownloadReply true data))))
              = DownloadStarted.download_id data
            ∧ alerts (step b2 (Settle rid (DownloadReply true data))) = alerts b2) as Hanswer.
  { intros b2 rid data Hrid.
    unfold step. rewrite Hrid. unfold resume, startDownload_resume, seq.
    rewrite startProgressTracking_downloader.
    split_and!; try done;
      unfold startProgressTracking, seq, setInterval_into_progressInterval, clearInterval, skip;
      by repeat case_match. }
  assert (suspended (step b ClickDownloadBtn) !! length (network b) = Some AwaitDownload)
    as Hsusp.
  { simpl. unfold startDownload. rewrite Hsel. unfold seq, fetch. simpl.
    apply lookup_insert_eq. }
  assert (disabled (getElementById (document (step b ClickDownloadBtn)) "downloadBtn") = true)
    as Hbtn.
  { simpl. unfold startDownload. rewrite Hsel. by dom_simpl. }
  split_and!; [| | | |done| |done|done| | | |exact Hanswer].
  1-5: simpl; unfold startDownload; rewrite Hsel;
    try done; try (dom_simpl; auto using d_none_added, d_none_removed).
  - simpl. unfold startDownload. by rewrite Hsel.
  - rewrite (proj1 (run_network (step b ClickDownloadBtn) es Hes)). by rewrite Hd.
  - intros data. destruct (Hanswer _ _ data Hsusp) as (Hdoc & Hid & _).
    split_and!; [done | done |]. by rewrite Hdoc.
Qed.

(** * The further properties on the example sessions *)


Lemma download_failure_is_shown_inline_witness :
  suspended starting_session !! 1%nat = Some AwaitDownload
  ∧ textContent
      (getElementById (document (step starting_session (Settle 1 (DownloadReply false refused))))
         "errorMessage")
    = "Failed to start download".
Proof.
  assert (suspended starting_session !! 1%nat = Some AwaitDownload) as H
    by (vm_compute; reflexivity).
  split; [exact H|].
  exact (proj1 (download_failure_is_shown_inline starting_session 1
                  (DownloadReply false refused) "Failed to start download" H
                  (or_intror (ex_intro _ refused (conj eq_refl eq_refl))))).
Defined.

Lemma download_sends_the_current_url_witness :
  checked_radio (formatsList (document rendered_session)) = Some example_row
  ∧ network (run rendered_session [InputUrl ""; ClickDownloadBtn])
    = network rendered_session ++
        [PostDownload (Js.trim "") (radio_value example_row)
           (getDownloadType (radio_data_type example_row))].
Proof.
  assert (checked_radio (formatsList (document rendered_session)) = Some example_row) as Hsel
    by (vm_compute; reflexivity).
  split; [exact Hsel|].
  exact (download_sends_the_current_url rendered_session "" example_row Hsel).
Defined.


Lemma progress_bar_shows_one_colour_witness :
  suspended polling_session !! 2%nat = Some AwaitProgress
  ∧ "bg-warning"
    ∈ classList
        (getElementById
           (document (step polling_session
                        (Settle 2 (ProgressReply (example_progress "processing" 60)))))
           "progressBar").
Proof.
  assert (suspended polling_session !! 2%nat = Some AwaitProgress) as H
    by (vm_compute; reflexivity).
  destruct (progress_bar_shows_one_colour polling_session 2
              (example_progress "processing" 60) H) as (_ & Hwarning & _).
  split; [exact H|]. apply Hwarning. reflexivity.
Defined.

Lemma progress_reply_refreshes_display_witness :
  suspended polling_session !! 2%nat = Some AwaitProgress
  ∧ textContent
      (getElementById
         (document (step polling_session
                      (Settle 2 (ProgressReply (example_progress "processing" 60)))))
         "statusMessage")
    = Progress.message (example_progress "processing" 60).
Proof.
  assert (suspended polling_session !! 2%nat = Some AwaitProgress) as H
    by (vm_compute; reflexivity).
  assert (0 ≤ Progress.percent (example_progress "processing" 60) ≤ 100)%Z as Hpercent
    by (simpl; lia).
  destruct (progress_reply_refreshes_display polling_session 2
              (example_progress "processing" 60) H Hpercent)
    as (_ & _ & _ & _ & _ & Hmessage & _).
  split; [exact H | exact Hmessage].
Defined.

Lemma other_status_keeps_polling_witness :
  suspended polling_session !! 2%nat = Some AwaitProgress
  ∧ intervals (step polling_session
                 (Settle 2 (ProgressReply (example_progress "downloading" 40))))
    = intervals polling_session.
Proof.
  assert (suspended polling_session !! 2%nat = Some AwaitProgress) as H
    by (vm_compute; reflexivity).
  assert (Progress.status (example_progress "downloading" 40) ≠ "completed") as Hc
    by discriminate.
  assert (Progress.status (example_progress "downloading" 40) ≠ "error") as He
    by discriminate.
  split; [exact H|].
  exact (proj1 (other_status_keeps_polling polling_session 2
                  (example_progress "downloading" 40) H Hc He)).
Defined.

Lemma fetch_success_shows_video_info_witness :
  suspended fetching_session !! 0%nat = Some AwaitFormats
  ∧ textContent
      (getElementById
         (document (step fetching_session
                      (Settle 0 (FormatsReply true (example_info (Some [example_format]))))))
         "videoTitle")
    = VideoInfo.title (example_info (Some [example_format])).
Proof.
  assert (suspended fetching_session !! 0%nat = Some AwaitFormats) as H
    by (vm_compute; reflexivity).
  destruct (fetch_success_shows_video_info fetching_session 0
              (example_info (Some [example_format])) H) as (_ & Htitle & _).
  split; [exact H | exact Htitle].
Defined.

Lemma no_formats_notice_stays_hidden_witness :
  Js.trim (value (getElementById (document typed_session) "videoUrl")) ≠ ""
  ∧ suspended fetching_session !! 0%nat = Some AwaitFormats
  ∧ hidden (run typed_session
              [SubmitUrlForm;
               Settle (length (network typed_session)) (FormatsReply true (example_info (Some [])))])
      "formatsCard".
Proof.
  assert (Js.trim (value (getElementById (document typed_session) "videoUrl")) ≠ "") as Hurl
    by (vm_compute; discriminate).
  assert (suspended fetching_session !! 0%nat = Some AwaitFormats) as H
    by (vm_compute; reflexivity).
  destruct (no_formats_notice_stays_hidden typed_session fetching_session 0
              (example_info (Some [])) Hurl H (or_intror eq_refl)) as (_ & _ & Hhidden).
  split; [exact Hurl|]. split; [exact H | exact Hhidden].
Defined.

Lemma last_formats_answer_wins_witness :
  suspended fetching_twice_session !! 1%nat = Some AwaitFormats
  ∧ suspended fetching_twice_session !! 0%nat = Some AwaitFormats
  ∧ Forall (λ format, plain_format format = true) [example_format]
  ∧ radio_value
      <$> format_rows
            (run fetching_twice_session
               [Settle 1 (FormatsReply true (example_info (Some [mp3_named_format])));
                Settle 0 (FormatsReply true (example_info (Some [example_format])))])
    = FormatOption.format_id <$> [example_format].
Proof.
  assert (suspended fetching_twice_session !! 1%nat = Some AwaitFormats) as H1
    by (vm_compute; reflexivity).
  assert (suspended fetching_twice_session !! 0%nat = Some AwaitFormats) as H0
    by (vm_compute; reflexivity).
  assert (1 ≠ 0)%nat as Hne by discriminate.
  assert (Forall (λ format, plain_format format = true) [example_format]) as Hplain
    by (repeat constructor).
  destruct (last_formats_answer_wins fetching_twice_session 1 0
              (example_info (Some [mp3_named_format]))
              (example_info (Some [example_format]))
              example_format [] Hne H1 H0 eq_refl) as (_ & _ & _ & Hvalues).
  split; [exact H1|]. split; [exact H0|]. split; [exact Hplain|].
  exact (Hvalues Hplain).
Defined.


Lemma click_selects_the_row_witness :
  formatsList blank_page = []
  ∧ (1 < length (format_rows (run (loaded blank_page) two_formats_events)))%nat
  ∧ selected_rows (step (run (loaded blank_page) two_formats_events) (ClickFormat 1))
    = [1%nat].
Proof.
  assert (1 < length (format_rows (run (loaded blank_page) two_formats_events)))%nat as Hi
    by (vm_compute; lia).
  split; [reflexivity|]. split; [exact Hi|].
  exact (proj1 (click_selects_the_row blank_page two_formats_events 1 eq_refl Hi)).
Defined.

Lemma toggleDarkMode_alternates_witness :
  data_bs_theme (toggleDarkMode
                   (toggleDarkMode {| data_bs_theme := Some "light";
                                      icon_className := "fas fa-sun" |}))
  = Some "light".
Proof.
  destruct (toggleDarkMode_alternates
              {| data_bs_theme := Some "light"; icon_className := "fas fa-sun" |})
    as (_ & _ & Hback & _).
  apply Hback. right. reflexivity.
Defined.

Lemma file_button_opens_the_tracked_download_witness :
  currentDownloadId (downloader polling_session) = Some "abc123"
  ∧ windows (step (run polling_session
                     [Settle 2 (ProgressReply (example_progress "completed" 100));
                      SubmitUrlForm])
               ClickDownloadFileBtn)
    = windows (run polling_session
                 [Settle 2 (ProgressReply (example_progress "completed" 100)); SubmitUrlForm])
      ++ ["/download_file/" +:+ "abc123"].
Proof.
  assert (currentDownloadId (downloader polling_session) = Some "abc123") as Hid
    by (vm_compute; reflexivity).
  assert ("abc123" ≠ "") as Hne by discriminate.
  assert (Forall (λ e, starts_tracking e = false)
            [Settle 2 (ProgressReply (example_progress "completed" 100)); SubmitUrlForm])
    as Hes by (repeat constructor).
  split; [exact Hid|].
  exact (proj1 (proj2 (file_button_opens_the_tracked_download polling_session _ "abc123"
                         Hid Hne Hes))).
Defined.

Lemma download_ids_come_from_the_server_witness :
  GetProgress "abc123" ∈ network (run (loaded blank_page) polling_events)
  ∧ returned_by polling_events "abc123".
Proof.
  assert (GetProgress "abc123" ∈ network (run (loaded blank_page) polling_events)) as Hin.
  { assert (network (run (loaded blank_page) polling_events)
            = [PostFetchFormats example_url; PostDownload example_url "22" "video";
               GetProgress "abc123"]) as -> by (vm_compute; reflexivity).
    rewrite !elem_of_cons. right. right. left. reflexivity. }
  split; [exact Hin|].
  destruct (download_ids_come_from_the_server blank_page polling_events) as (_ & Hnet & _).
  exact (Hnet "abc123" Hin).
Defined.

Lemma requests_are_well_formed_witness :
  PostDownload example_url "22" "video" ∈ network (run (loaded blank_page) polling_events)
  ∧ well_formed (PostDownload example_url "22" "video").
Proof.
  assert (PostDownload example_url "22" "video"
          ∈ network (run (loaded blank_page) polling_events)) as Hin.
  { assert (network (run (loaded blank_page) polling_events)
            = [PostFetchFormats example_url; PostDownload example_url "22" "video";
               GetProgress "abc123"]) as -> by (vm_compute; reflexivity).
    rewrite !elem_of_cons. right. left. reflexivity. }
  split; [exact Hin|].
  exact (requests_are_well_formed blank_page polling_events _ Hin).
Defined.

Lemma fetch_button_is_busy_during_the_call_witness :
  Js.trim (value (getElementById (document typed_session) "videoUrl")) ≠ ""
  ∧ disabled
      (getElementById
         (document (run (step typed_session SubmitUrlForm) [ClickDownloadBtn; CallResetDownload]))
         "fetchBtn") = true
  ∧ suspended fetching_session !! 0%nat = Some AwaitFormats
  ∧ disabled (getElementById
                (document (step fetching_session (Settle 0 (Rejected "Failed to fetch"))))
                "fetchBtn") = false.
Proof.
  assert (Js.trim (value (getElementById (document typed_session) "videoUrl")) ≠ "") as Hurl
    by (vm_compute; discriminate).
  assert (Forall (λ e, may_answer_fetch e = false) [ClickDownloadBtn; CallResetDownload])
    as Hes by (repeat constructor).
  assert (suspended fetching_session !! 0%nat = Some AwaitFormats) as H
    by (vm_compute; reflexivity).
  assert (is_Some (fetchFormats_resume (Rejected "Failed to fetch"))) as Hr
    by (eexists; reflexivity).
  destruct (fetch_button_is_busy_during_the_call typed_session
              [ClickDownloadBtn; CallResetDownload] Hurl Hes) as (Hbusy & _ & _ & _ & Hanswer).
  split; [exact Hurl|]. split; [exact Hbusy|]. split; [exact H|].
  exact (proj1 (Hanswer fetching_session 0%nat (Rejected "Failed to fetch") H Hr)).
Defined.

Lemma download_click_shows_progress_witness :
  checked_radio (formatsList (document rendered_session)) = Some example_row
  ∧ disabled (getElementById (document (step rendered_session ClickDownloadBtn)) "downloadBtn")
    = true
  ∧ currentDownloadId
      (downloader (run (step rendered_session ClickDownloadBtn) [CallResetDownload; SubmitUrlForm]))
    = currentDownloadId (downloader rendered_session)
  ∧ suspended starting_session !! 1%nat = Some AwaitDownload
  ∧ document (step starting_session (Settle 1 (DownloadReply true (started "abc123"))))
    = document starting_session.
Proof.
  assert (checked_radio (formatsList (document rendered_session)) = Some example_row) as Hsel
    by (vm_compute; reflexivity).
  assert (Forall (λ e, starts_tracking e = false) [CallResetDownload; SubmitUrlForm]) as Hes
    by (repeat constructor).
  assert (suspended starting_session !! 1%nat = Some AwaitDownload) as H
    by (vm_compute; reflexivity).
  destruct (download_click_shows_progress rendered_session example_row
              [CallResetDownload; SubmitUrlForm] Hsel Hes)
    as (_ & _ & _ & _ & Hbtn & _ & _ & _ & _ & Hkept & _ & Hanswer).
  split; [exact Hsel|]. split; [exact Hbtn|]. split; [exact Hkept|]. split; [exact H|].
  exact (proj1 (Hanswer starting_session 1%nat (started "abc123") H)).
Defined.
